(** * Mediated-transfer state values of a Raiden node

    A shallow embedding of [raiden/transfer/mediated_transfer/state.py]:
    the state classes of the initiator, mediator and target roles, their
    constructors with the run-time guards they perform, and their
    hand-written equality methods.  A second part models the canonical
    mapping representation of the transfer messages exercised by
    [raiden/tests/unit/test_dict_encoding.py]. *)

From Stdlib Require Import ZArith List String Ascii DecimalString DecimalZ.
From Stdlib.Strings Require Import Byte.
From stdpp Require Import base option list strings gmap.

Local Open Scope Z_scope.
Local Open Scope string_scope.

(** ** Python values *)

(** A Python [bytes] value, by content. *)
Definition bytes : Type := list byte.

(** The exceptions the module raises: every guard raises [ValueError]
    with a message. *)
Inductive exception : Type :=
| ValueError (msg : string).

(** Outcome of a call that either returns or raises. *)
Inductive result (A : Type) : Type :=
| Ok (a : A)
| Raise (e : exception).
Arguments Ok {A} a.
Arguments Raise {A} e.

(** Built-in values that can be passed where the module expects a state
    object or an address. *)
Inductive atom : Type :=
| PyNone
| PyInt (z : Z)
| PyBytes (b : bytes)
| PyStr (s : string).

(** A reference to a [bytes] object.  The only identity test of the
    module is [balance_proof.locksroot is EMPTY_MERKLE_ROOT], so a
    reference is told apart only as the object the module constant
    [EMPTY_MERKLE_ROOT] is bound to, or as some other object, whose
    content is recorded. *)
Inductive bytes_ref : Type :=
| the_EMPTY_MERKLE_ROOT
| other_bytes (content : bytes).

(** ** What the module imports and the sources do not contain *)

Class Externals : Type := {
  (** content of the constant [raiden.transfer.state.EMPTY_MERKLE_ROOT] *)
  EMPTY_MERKLE_ROOT : bytes;
  (** [raiden.utils.sha3], the keccak256 hash *)
  sha3 : bytes -> bytes;
  (** [isinstance(_, typing.T_Address)] on the built-in values;
      [T_Address] names a built-in type, so no state object is one *)
  T_Address : atom -> bool;
  (** objects of classes declared elsewhere ([RouteState], the
      secret-request and reveal-secret events), with their [==] *)
  Foreign : Type;
  Foreign__eq__ : Foreign -> Foreign -> bool;
}.

(** ** Python's [==] on the field types *)

Class PyEq (A : Type) : Type := py_eq : A -> A -> bool.
Infix "==" := py_eq (at level 70, no associativity) : bool_scope.

Definition byte_list_eqb : bytes -> bytes -> bool :=
  fix go (a b : bytes) : bool :=
    match a, b with
    | [], [] => true
    | x :: a', y :: b' => Byte.eqb x y && go a' b'
    | _, _ => false
    end.

Definition option_eqb {A : Type} (eqA : A -> A -> bool) (a b : option A) : bool :=
  match a, b with
  | None, None => true
  | Some x, Some y => eqA x y
  | _, _ => false
  end.

Definition list_eqb {A : Type} (eqA : A -> A -> bool) : list A -> list A -> bool :=
  fix go (a b : list A) : bool :=
    match a, b with
    | [], [] => true
    | x :: a', y :: b' => eqA x y && go a' b'
    | _, _ => false
    end.

Definition atom_eqb (a b : atom) : bool :=
  match a, b with
  | PyNone, PyNone => true
  | PyInt x, PyInt y => Z.eqb x y
  | PyBytes x, PyBytes y => byte_list_eqb x y
  | PyStr x, PyStr y => String.eqb x y
  | _, _ => false
  end.

#[export] Instance Z__eq__ : PyEq Z := Z.eqb.
#[export] Instance bytes__eq__ : PyEq bytes := byte_list_eqb.
#[export] Instance str__eq__ : PyEq string := String.eqb.
#[export] Instance atom__eq__ : PyEq atom := atom_eqb.
#[export] Instance option__eq__ {A : Type} `{PyEq A} : PyEq (option A) :=
  option_eqb py_eq.
#[export] Instance list__eq__ {A : Type} `{PyEq A} : PyEq (list A) :=
  list_eqb py_eq.

Section State.
Context `{Externals}.

Definition deref (r : bytes_ref) : bytes :=
  match r with
  | the_EMPTY_MERKLE_ROOT => EMPTY_MERKLE_ROOT
  | other_bytes content => content
  end.

(** [r is EMPTY_MERKLE_ROOT] *)
Definition is_EMPTY_MERKLE_ROOT (r : bytes_ref) : bool :=
  match r with
  | the_EMPTY_MERKLE_ROOT => true
  | other_bytes _ => false
  end.

(** [==] on [bytes] objects compares contents, whatever the objects. *)
#[export] Instance bytes_ref__eq__ : PyEq bytes_ref :=
  fun a b => deref a == deref b.

#[export] Instance Foreign_PyEq : PyEq Foreign := Foreign__eq__.

(** ** The state classes *)

(** Modelled from the spec: [HashTimeLockState] is declared in
    [raiden.transfer.state], which is not among the sources; the spec gives
    it as [{amount, expiration, secrethash}]. *)
Record HashTimeLockState : Type := mkHashTimeLockState {
  htl_amount : Z;
  htl_expiration : Z;
  htl_secrethash : bytes;
}.

(** Modelled from the spec: [BalanceProofUnsignedState] is declared in
    [raiden.transfer.state], which is not among the sources; the spec gives
    it as [{nonce, transferred_amount, locksroot, channel_identifier,
    message_hash}]. *)
Record BalanceProofUnsignedState : Type := mkBalanceProofUnsignedState {
  bpu_nonce : Z;
  bpu_transferred_amount : Z;
  bpu_locksroot : bytes_ref;
  bpu_channel_identifier : bytes;
  bpu_message_hash : bytes;
}.

(** Modelled from the spec: [BalanceProofSignedState] is declared in
    [raiden.transfer.state], which is not among the sources; the spec gives
    it as the unsigned fields plus [{signature, sender}], and
    [lockedtransfersigned_from_message] passes its constructor the seven
    values in this order. *)
Record BalanceProofSignedState : Type := mkBalanceProofSignedState {
  bps_nonce : Z;
  bps_transferred_amount : Z;
  bps_locksroot : bytes_ref;
  bps_channel_identifier : bytes;
  bps_message_hash : bytes;
  bps_signature : bytes;
  bps_sender : bytes;
}.

Record LockedTransferUnsignedState : Type := mkLockedTransferUnsignedState {
  ltu_identifier : Z;
  ltu_token : bytes;
  ltu_balance_proof : BalanceProofUnsignedState;
  ltu_lock : HashTimeLockState;
  ltu_initiator : bytes;
  ltu_target : bytes;
}.

Record LockedTransferSignedState : Type := mkLockedTransferSignedState {
  lts_identifier : Z;
  lts_token : bytes;
  lts_balance_proof : BalanceProofSignedState;
  lts_lock : HashTimeLockState;
  lts_initiator : bytes;
  lts_target : bytes;
}.

Record TransferDescriptionWithSecretState : Type :=
  mkTransferDescriptionWithSecretState {
  td_identifier : Z;
  td_amount : Z;
  td_registry : bytes;
  td_token : bytes;
  td_initiator : bytes;
  td_target : bytes;
  td_secret : bytes;
  td_secrethash : bytes;
}.

Record InitiatorPaymentState : Type := mkInitiatorPaymentState {
  ips_initiator : bytes;
  ips_cancelled_channels : list bytes;
}.

Record InitiatorTransferState : Type := mkInitiatorTransferState {
  its_transfer_description : TransferDescriptionWithSecretState;
  its_channel_identifier : bytes;
  its_transfer : option LockedTransferUnsignedState;
  its_secretrequest : option Foreign;
  its_revealsecret : option Foreign;
}.

Record MediationPairState : Type := mkMediationPairState {
  mp_payee_address : atom;
  mp_payee_transfer : LockedTransferUnsignedState;
  mp_payee_state : string;
  mp_payer_transfer : LockedTransferSignedState;
  mp_payer_state : string;
}.

Record MediatorTransferState : Type := mkMediatorTransferState {
  mts_secrethash : bytes;
  mts_secret : option bytes;
  mts_transfers_pair : list MediationPairState;
}.

(** The slot [hahslock] is declared but never assigned nor read: it is no
    field of the model. *)
Record TargetTransferState : Type := mkTargetTransferState {
  tts_route : Foreign;
  tts_transfer : LockedTransferSignedState;
  tts_secret : option bytes;
  tts_state : string;
}.

(** Any object a caller can pass to a constructor or compare with [==]. *)
Inductive value : Type :=
| VAtom (a : atom)
| VForeign (o : Foreign)
| VHashTimeLockState (o : HashTimeLockState)
| VBalanceProofUnsignedState (o : BalanceProofUnsignedState)
| VBalanceProofSignedState (o : BalanceProofSignedState)
| VInitiatorPaymentState (o : InitiatorPaymentState)
| VInitiatorTransferState (o : InitiatorTransferState)
| VMediatorTransferState (o : MediatorTransferState)
| VTargetTransferState (o : TargetTransferState)
| VLockedTransferUnsignedState (o : LockedTransferUnsignedState)
| VLockedTransferSignedState (o : LockedTransferSignedState)
| VTransferDescriptionWithSecretState (o : TransferDescriptionWithSecretState)
| VMediationPairState (o : MediationPairState).

(** The classes declared in the module. *)
Inductive state_class : Type :=
| InitiatorPaymentState_cls
| InitiatorTransferState_cls
| MediatorTransferState_cls
| TargetTransferState_cls
| LockedTransferUnsignedState_cls
| LockedTransferSignedState_cls
| TransferDescriptionWithSecretState_cls
| MediationPairState_cls.

(** [type(v)] when it is one of the module's classes. *)
Definition class_of (v : value) : option state_class :=
  match v with
  | VInitiatorPaymentState _ => Some InitiatorPaymentState_cls
  | VInitiatorTransferState _ => Some InitiatorTransferState_cls
  | VMediatorTransferState _ => Some MediatorTransferState_cls
  | VTargetTransferState _ => Some TargetTransferState_cls
  | VLockedTransferUnsignedState _ => Some LockedTransferUnsignedState_cls
  | VLockedTransferSignedState _ => Some LockedTransferSignedState_cls
  | VTransferDescriptionWithSecretState _ =>
      Some TransferDescriptionWithSecretState_cls
  | VMediationPairState _ => Some MediationPairState_cls
  | VAtom _ | VForeign _ | VHashTimeLockState _
  | VBalanceProofUnsignedState _ | VBalanceProofSignedState _ => None
  end.

(** [isinstance(payee_address, typing.T_Address)] *)
Definition isinstance_T_Address (v : value) : bool :=
  match v with
  | VAtom a => T_Address a
  | _ => false
  end.

(** ** Constructors *)

(** The attributes of a [raiden.messages.LockedTransfer] (declared
    outside the sources) that [lockedtransfersigned_from_message] reads.
    [message.lock] is the message's lock object. *)
Record Lock : Type := mkLock {
  lock_amount : Z;
  lock_expiration : Z;
  lock_secrethash : bytes;
}.

Record LockedTransferMessage : Type := mkLockedTransferMessage {
  msg_nonce : Z;
  msg_transferred_amount : Z;
  msg_locksroot : bytes_ref;
  msg_channel : bytes;
  msg_message_hash : bytes;
  msg_signature : bytes;
  msg_sender : bytes;
  msg_lock : Lock;
  msg_identifier : Z;
  msg_token : bytes;
  msg_initiator : bytes;
  msg_target : bytes;
}.

Definition InitiatorPaymentState__init__ (initiator : bytes)
  : InitiatorPaymentState :=
  {| ips_initiator := initiator;
     ips_cancelled_channels := [] |}.

Definition InitiatorTransferState__init__
    (transfer_description : value) (channel_identifier : bytes)
  : result InitiatorTransferState :=
  match transfer_description with
  | VTransferDescriptionWithSecretState transfer_description =>
      Ok {| its_transfer_description := transfer_description;
            its_channel_identifier := channel_identifier;
            its_transfer := None;
            its_secretrequest := None;
            its_revealsecret := None |}
  | _ =>
      Raise (ValueError
        "transfer_description must be an instance of TransferDescriptionWithSecretState")
  end.

Definition MediatorTransferState__init__ (secrethash : bytes)
  : MediatorTransferState :=
  {| mts_secrethash := secrethash;
     mts_secret := None;
     mts_transfers_pair := [] |}.

Definition TargetTransferState_valid_states : list string :=
  [ "secret_request"; "reveal_secret"; "waiting_close"; "expired" ].

Definition TargetTransferState__init__
    (route : Foreign) (transfer : LockedTransferSignedState)
  : TargetTransferState :=
  {| tts_route := route;
     tts_transfer := transfer;
     tts_secret := None;
     tts_state := "secret_request" |}.

Definition LockedTransferUnsignedState__init__
    (identifier : Z) (token : bytes) (balance_proof lock : value)
    (initiator target : bytes)
  : result LockedTransferUnsignedState :=
  match lock with
  | VHashTimeLockState lock =>
      match balance_proof with
      | VBalanceProofUnsignedState balance_proof =>
          if is_EMPTY_MERKLE_ROOT (bpu_locksroot balance_proof)
          then Raise (ValueError "balance_proof must not be empty")
          else Ok {| ltu_identifier := identifier;
                     ltu_token := token;
                     ltu_balance_proof := balance_proof;
                     ltu_lock := lock;
                     ltu_initiator := initiator;
                     ltu_target := target |}
      | _ =>
          Raise (ValueError
            "balance_proof must be a BalanceProofUnsignedState instance")
      end
  | _ => Raise (ValueError "lock must be a HashTimeLockState instance")
  end.

Definition LockedTransferSignedState__init__
    (identifier : Z) (token : bytes) (balance_proof lock : value)
    (initiator target : bytes)
  : result LockedTransferSignedState :=
  match lock with
  | VHashTimeLockState lock =>
      match balance_proof with
      | VBalanceProofSignedState balance_proof =>
          if is_EMPTY_MERKLE_ROOT (bps_locksroot balance_proof)
          then Raise (ValueError "balance_proof must not be empty")
          else Ok {| lts_identifier := identifier;
                     lts_token := token;
                     lts_balance_proof := balance_proof;
                     lts_lock := lock;
                     lts_initiator := initiator;
                     lts_target := target |}
      | _ =>
          Raise (ValueError
            "balance_proof must be a BalanceProofSignedState instance")
      end
  | _ => Raise (ValueError "lock must be a HashTimeLockState instance")
  end.

Definition TransferDescriptionWithSecretState__init__
    (identifier amount : Z) (registry token initiator target secret : bytes)
  : TransferDescriptionWithSecretState :=
  let secrethash := sha3 secret in
  {| td_identifier := identifier;
     td_amount := amount;
     td_registry := registry;
     td_token := token;
     td_initiator := initiator;
     td_target := target;
     td_secret := secret;
     td_secrethash := secrethash |}.

Definition MediationPairState_valid_payee_states : list string :=
  [ "payee_pending"; "payee_secret_revealed"; "payee_refund_withdraw";
    "payee_contract_withdraw"; "payee_balance_proof"; "payee_expired" ].

Definition MediationPairState_valid_payer_states : list string :=
  [ "payer_pending"; "payer_secret_revealed"; "payer_waiting_close";
    "payer_waiting_withdraw"; "payer_contract_withdraw";
    "payer_balance_proof"; "payer_expired" ].

Definition MediationPairState__init__
    (payer_transfer payee_address payee_transfer : value)
  : result MediationPairState :=
  match payer_transfer with
  | VLockedTransferSignedState payer_transfer =>
      match payee_address with
      | VAtom address =>
          if T_Address address then
            match payee_transfer with
            | VLockedTransferUnsignedState payee_transfer =>
                Ok {| mp_payee_address := address;
                      mp_payee_transfer := payee_transfer;
                      mp_payee_state := "payee_pending";
                      mp_payer_transfer := payer_transfer;
                      mp_payer_state := "payer_pending" |}
            | _ =>
                Raise (ValueError
                  "payee_transfer must be a LockedTransferUnsignedState instance")
            end
          else Raise (ValueError "payee_address must be an address")
      | _ => Raise (ValueError "payee_address must be an address")
      end
  | _ =>
      Raise (ValueError
        "payer_transfer must be a LockedTransferSignedState instance")
  end.

(** The constructors of [BalanceProofSignedState] and [HashTimeLockState]
    are those of the records above: they store their arguments, as the
    absent constructors do on values within the types of the spec. *)
Definition lockedtransfersigned_from_message
    (message : LockedTransferMessage)
  : result LockedTransferSignedState :=
  let balance_proof :=
    mkBalanceProofSignedState
      (msg_nonce message)
      (msg_transferred_amount message)
      (msg_locksroot message)
      (msg_channel message)
      (msg_message_hash message)
      (msg_signature message)
      (msg_sender message) in
  let lock :=
    mkHashTimeLockState
      (lock_amount (msg_lock message))
      (lock_expiration (msg_lock message))
      (lock_secrethash (msg_lock message)) in
  LockedTransferSignedState__init__
    (msg_identifier message)
    (msg_token message)
    (VBalanceProofSignedState balance_proof)
    (VHashTimeLockState lock)
    (msg_initiator message)
    (msg_target message).

(** ** Equality methods *)

(** Modelled from the spec: the [__eq__] of the three classes of
    [raiden.transfer.state], which is not among the sources; the spec has
    every state value compared structurally, so each compares all the
    fields of the class. *)
Definition HashTimeLockState__eq__ (self : HashTimeLockState) (other : value)
  : bool :=
  match other with
  | VHashTimeLockState other =>
      (htl_amount self == htl_amount other) &&
      (htl_expiration self == htl_expiration other) &&
      (htl_secrethash self == htl_secrethash other)
  | _ => false
  end.

#[export] Instance HashTimeLockState_PyEq : PyEq HashTimeLockState :=
  fun a b => HashTimeLockState__eq__ a (VHashTimeLockState b).

Definition BalanceProofUnsignedState__eq__
    (self : BalanceProofUnsignedState) (other : value) : bool :=
  match other with
  | VBalanceProofUnsignedState other =>
      (bpu_nonce self == bpu_nonce other) &&
      (bpu_transferred_amount self == bpu_transferred_amount other) &&
      (bpu_locksroot self == bpu_locksroot other) &&
      (bpu_channel_identifier self == bpu_channel_identifier other) &&
      (bpu_message_hash self == bpu_message_hash other)
  | _ => false
  end.

#[export] Instance BalanceProofUnsignedState_PyEq
  : PyEq BalanceProofUnsignedState :=
  fun a b => BalanceProofUnsignedState__eq__ a (VBalanceProofUnsignedState b).

Definition BalanceProofSignedState__eq__
    (self : BalanceProofSignedState) (other : value) : bool :=
  match other with
  | VBalanceProofSignedState other =>
      (bps_nonce self == bps_nonce other) &&
      (bps_transferred_amount self == bps_transferred_amount other) &&
      (bps_locksroot self == bps_locksroot other) &&
      (bps_channel_identifier self == bps_channel_identifier other) &&
      (bps_message_hash self == bps_message_hash other) &&
      (bps_signature self == bps_signature other) &&
      (bps_sender self == bps_sender other)
  | _ => false
  end.

#[export] Instance BalanceProofSignedState_PyEq
  : PyEq BalanceProofSignedState :=
  fun a b => BalanceProofSignedState__eq__ a (VBalanceProofSignedState b).

(** The methods of the module, each an [isinstance] test followed by
    the comparisons of the fields in the order of the source. *)
Definition InitiatorPaymentState__eq__
    (self : InitiatorPaymentState) (other : value) : bool :=
  match other with
  | VInitiatorPaymentState other =>
      (ips_initiator self == ips_initiator other) &&
      (ips_cancelled_channels self == ips_cancelled_channels other)
  | _ => false
  end.

Definition InitiatorPaymentState__ne__
    (self : InitiatorPaymentState) (other : value) : bool :=
  negb (InitiatorPaymentState__eq__ self other).

Definition LockedTransferUnsignedState__eq__
    (self : LockedTransferUnsignedState) (other : value) : bool :=
  match other with
  | VLockedTransferUnsignedState other =>
      (ltu_identifier self == ltu_identifier other) &&
      (ltu_token self == ltu_token other) &&
      (ltu_balance_proof self == ltu_balance_proof other) &&
      (ltu_lock self == ltu_lock other) &&
      (ltu_initiator self == ltu_initiator other) &&
      (ltu_target self == ltu_target other)
  | _ => false
  end.

Definition LockedTransferUnsignedState__ne__
    (self : LockedTransferUnsignedState) (other : value) : bool :=
  negb (LockedTransferUnsignedState__eq__ self other).

#[export] Instance LockedTransferUnsignedState_PyEq
  : PyEq LockedTransferUnsignedState :=
  fun a b =>
    LockedTransferUnsignedState__eq__ a (VLockedTransferUnsignedState b).

Definition LockedTransferSignedState__eq__
    (self : LockedTransferSignedState) (other : value) : bool :=
  match other with
  | VLockedTransferSignedState other =>
      (lts_identifier self == lts_identifier other) &&
      (lts_token self == lts_token other) &&
      (lts_balance_proof self == lts_balance_proof other) &&
      (lts_lock self == lts_lock other) &&
      (lts_initiator self == lts_initiator other) &&
      (lts_target self == lts_target other)
  | _ => false
  end.

Definition LockedTransferSignedState__ne__
    (self : LockedTransferSignedState) (other : value) : bool :=
  negb (LockedTransferSignedState__eq__ self other).

#[export] Instance LockedTransferSignedState_PyEq
  : PyEq LockedTransferSignedState :=
  fun a b => LockedTransferSignedState__eq__ a (VLockedTransferSignedState b).

Definition TransferDescriptionWithSecretState__eq__
    (self : TransferDescriptionWithSecretState) (other : value) : bool :=
  match other with
  | VTransferDescriptionWithSecretState other =>
      (td_identifier self == td_identifier other) &&
      (td_amount self == td_amount other) &&
      (td_registry self == td_registry other) &&
      (td_token self == td_token other) &&
      (td_initiator self == td_initiator other) &&
      (td_target self == td_target other) &&
      (td_secret self == td_secret other) &&
      (td_secrethash self == td_secrethash other)
  | _ => false
  end.

Definition TransferDescriptionWithSecretState__ne__
    (self : TransferDescriptionWithSecretState) (other : value) : bool :=
  negb (TransferDescriptionWithSecretState__eq__ self other).

#[export] Instance TransferDescriptionWithSecretState_PyEq
  : PyEq TransferDescriptionWithSecretState :=
  fun a b =>
    TransferDescriptionWithSecretState__eq__ a
      (VTransferDescriptionWithSecretState b).

Definition InitiatorTransferState__eq__
    (self : InitiatorTransferState) (other : value) : bool :=
  match other with
  | VInitiatorTransferState other =>
      (its_transfer_description self == its_transfer_description other) &&
      (its_channel_identifier self == its_channel_identifier other) &&
      (its_transfer self == its_transfer other) &&
      (its_secretrequest self == its_secretrequest other) &&
      (its_revealsecret self == its_revealsecret other)
  | _ => false
  end.

Definition InitiatorTransferState__ne__
    (self : InitiatorTransferState) (other : value) : bool :=
  negb (InitiatorTransferState__eq__ self other).

Definition MediationPairState__eq__
    (self : MediationPairState) (other : value) : bool :=
  match other with
  | VMediationPairState other =>
      (mp_payee_address self == mp_payee_address other) &&
      (mp_payee_transfer self == mp_payee_transfer other) &&
      (mp_payee_state self == mp_payee_state other) &&
      (mp_payer_transfer self == mp_payer_transfer other) &&
      (mp_payer_state self == mp_payer_state other)
  | _ => false
  end.

Definition MediationPairState__ne__
    (self : MediationPairState) (other : value) : bool :=
  negb (MediationPairState__eq__ self other).

#[export] Instance MediationPairState_PyEq : PyEq MediationPairState :=
  fun a b => MediationPairState__eq__ a (VMediationPairState b).

Definition MediatorTransferState__eq__
    (self : MediatorTransferState) (other : value) : bool :=
  match other with
  | VMediatorTransferState other =>
      (mts_secrethash self == mts_secrethash other) &&
      (mts_secret self == mts_secret other) &&
      (mts_transfers_pair self == mts_transfers_pair other)
  | _ => false
  end.

Definition MediatorTransferState__ne__
    (self : MediatorTransferState) (other : value) : bool :=
  negb (MediatorTransferState__eq__ self other).

Definition TargetTransferState__eq__
    (self : TargetTransferState) (other : value) : bool :=
  match other with
  | VTargetTransferState other =>
      (tts_route self == tts_route other) &&
      (tts_transfer self == tts_transfer other) &&
      (tts_secret self == tts_secret other) &&
      (tts_state self == tts_state other)
  | _ => false
  end.

Definition TargetTransferState__ne__
    (self : TargetTransferState) (other : value) : bool :=
  negb (TargetTransferState__eq__ self other).

(** [x == y] and [x != y] for arbitrary operands: the method of the left
    operand's class decides.  A built-in or foreign left operand does not
    know the module's classes, Python then asks the right operand, whose
    [isinstance] test fails. *)
Definition value__eq__ (x y : value) : bool :=
  match x with
  | VAtom a => match y with VAtom b => a == b | _ => false end
  | VForeign a => match y with VForeign b => a == b | _ => false end
  | VHashTimeLockState o => HashTimeLockState__eq__ o y
  | VBalanceProofUnsignedState o => BalanceProofUnsignedState__eq__ o y
  | VBalanceProofSignedState o => BalanceProofSignedState__eq__ o y
  | VInitiatorPaymentState o => InitiatorPaymentState__eq__ o y
  | VInitiatorTransferState o => InitiatorTransferState__eq__ o y
  | VMediatorTransferState o => MediatorTransferState__eq__ o y
  | VTargetTransferState o => TargetTransferState__eq__ o y
  | VLockedTransferUnsignedState o => LockedTransferUnsignedState__eq__ o y
  | VLockedTransferSignedState o => LockedTransferSignedState__eq__ o y
  | VTransferDescriptionWithSecretState o =>
      TransferDescriptionWithSecretState__eq__ o y
  | VMediationPairState o => MediationPairState__eq__ o y
  end.

Definition value__ne__ (x y : value) : bool :=
  match x with
  | VInitiatorPaymentState o => InitiatorPaymentState__ne__ o y
  | VInitiatorTransferState o => InitiatorTransferState__ne__ o y
  | VMediatorTransferState o => MediatorTransferState__ne__ o y
  | VTargetTransferState o => TargetTransferState__ne__ o y
  | VLockedTransferUnsignedState o => LockedTransferUnsignedState__ne__ o y
  | VLockedTransferSignedState o => LockedTransferSignedState__ne__ o y
  | VTransferDescriptionWithSecretState o =>
      TransferDescriptionWithSecretState__ne__ o y
  | VMediationPairState o => MediationPairState__ne__ o y
  | _ => negb (value__eq__ x y)
  end.

End State.

(** ** The canonical mapping representation of the transfer messages *)

(** Modelled from the spec: [raiden.messages] and [raiden.constants] are
    not among the sources, only the round-trip tests are.  The spec gives
    the mapping as string-keyed, numeric fields written as decimal
    strings, binary fields as hexadecimal with the prefix [0x]; it gives
    the fields of [LockedTransfer] by its wire layout and has the two
    other messages carry subsets of them.  Identifier and nonce are
    unsigned 64-bit (the nonce begins at 1), amounts, fee and expiration
    unsigned 256-bit; an implementation rejects values out of range. *)
Module Messages.

Local Open Scope Z_scope.

Definition UINT64_MAX : Z := 2 ^ 64 - 1.
Definition UINT256_MAX : Z := 2 ^ 256 - 1.

(** *** Decimal strings *)

Definition encode_number (n : Z) : string :=
  NilZero.string_of_int (Z.to_int n).

Definition decode_number (s : string) : option Z :=
  Z.of_int <$> NilZero.int_of_string s.

(** *** Hexadecimal strings *)

Definition hex_digit (n : N) : ascii :=
  match n with
  | 0 => "0" | 1 => "1" | 2 => "2" | 3 => "3" | 4 => "4" | 5 => "5"
  | 6 => "6" | 7 => "7" | 8 => "8" | 9 => "9" | 10 => "a" | 11 => "b"
  | 12 => "c" | 13 => "d" | 14 => "e" | _ => "f"
  end%N%char.

Definition hex_value (c : ascii) : option N :=
  let n := N_of_ascii c in
  if ((48 <=? n) && (n <=? 57))%N then Some (n - 48)%N
  else if ((97 <=? n) && (n <=? 102))%N then Some (n - 87)%N
  else if ((65 <=? n) && (n <=? 70))%N then Some (n - 55)%N
  else None.

Fixpoint encode_hex (b : bytes) : string :=
  match b with
  | [] => ""
  | x :: b' =>
      let n := Byte.to_N x in
      String (hex_digit (n / 16)%N)
        (String (hex_digit (n mod 16)%N) (encode_hex b'))
  end.

Fixpoint decode_hex (s : string) : option bytes :=
  match s with
  | "" => Some []
  | String hi (String lo s') =>
      h ← hex_value hi;
      l ← hex_value lo;
      x ← Byte.of_N (16 * h + l)%N;
      b ← decode_hex s';
      Some (x :: b)
  | String _ "" => None
  end.

Definition data_encoder (b : bytes) : string :=
  String "0" (String "x" (encode_hex b)).

Definition data_decoder (s : string) : option bytes :=
  match s with
  | String "0" (String "x" s') => decode_hex s'
  | _ => None
  end.

(** *** Fields *)

Inductive field_kind : Type :=
| Numeric (lo hi : Z)
| Binary.

Inductive field_value : Type :=
| NumericV (n : Z)
| BinaryV (b : bytes).

Definition encode_field (v : field_value) : string :=
  match v with
  | NumericV n => encode_number n
  | BinaryV b => data_encoder b
  end.

Definition decode_field (k : field_kind) (s : string) : option field_value :=
  match k with
  | Numeric lo hi =>
      n ← decode_number s;
      if (lo <=? n) && (n <=? hi) then Some (NumericV n) else None
  | Binary => BinaryV <$> data_decoder s
  end.

Definition in_kind (k : field_kind) (v : field_value) : Prop :=
  match k, v with
  | Numeric lo hi, NumericV n => lo <= n <= hi
  | Binary, BinaryV _ => True
  | _, _ => False
  end.

Fixpoint encode_fields (schema : list (string * field_kind))
    (vs : list field_value) : gmap string string :=
  match schema, vs with
  | (name, _) :: schema', v :: vs' =>
      <[name := encode_field v]> (encode_fields schema' vs')
  | _, _ => ∅
  end.

Fixpoint decode_fields (schema : list (string * field_kind))
    (m : gmap string string) : option (list field_value) :=
  match schema with
  | [] => Some []
  | (name, k) :: schema' =>
      s ← m !! name;
      v ← decode_field k s;
      vs ← decode_fields schema' m;
      Some (v :: vs)
  end.

Definition uint64 : field_kind := Numeric 0 UINT64_MAX.
Definition uint256 : field_kind := Numeric 0 UINT256_MAX.
Definition nonce_kind : field_kind := Numeric 1 UINT64_MAX.

(** *** The three messages *)

(** [LockedTransfer] has the fields of its wire layout, in that order;
    [RefundTransfer] is modelled with the same fields and
    [DirectTransfer], which carries no lock, with those that do not
    describe one.  The round-trip law below is proved for any table of
    fields without a repeated name, so it does not depend on the choice
    of the subsets. *)
Record DirectTransfer : Type := mkDirectTransfer {
  dt_nonce : Z;
  dt_identifier : Z;
  dt_token : bytes;
  dt_channel : bytes;
  dt_recipient : bytes;
  dt_locksroot : bytes;
  dt_transferred_amount : Z;
  dt_signature : bytes;
}.

Definition DirectTransfer_schema : list (string * field_kind) :=
  [("nonce", nonce_kind); ("identifier", uint64); ("token", Binary);
    ("channel", Binary); ("recipient", Binary); ("locksroot", Binary);
    ("transferred_amount", uint256); ("signature", Binary) ].

Definition DirectTransfer_fields (x : DirectTransfer) : list field_value :=
  [NumericV (dt_nonce x); NumericV (dt_identifier x); BinaryV (dt_token x);
    BinaryV (dt_channel x); BinaryV (dt_recipient x);
    BinaryV (dt_locksroot x); NumericV (dt_transferred_amount x);
    BinaryV (dt_signature x) ].

Definition DirectTransfer_of_fields (vs : list field_value) : option DirectTransfer :=
  match vs with
  | [NumericV nonce; NumericV identifier; BinaryV token; BinaryV channel;
      BinaryV recipient; BinaryV locksroot; NumericV transferred_amount;
      BinaryV signature ] =>
      Some (mkDirectTransfer nonce identifier token channel recipient locksroot
           transferred_amount signature)
  | _ => None
  end.

Definition DirectTransfer_to_mapping (x : DirectTransfer) : gmap string string :=
  encode_fields DirectTransfer_schema (DirectTransfer_fields x).

Definition DirectTransfer_from_mapping (m : gmap string string)
  : option DirectTransfer :=
  decode_fields DirectTransfer_schema m ≫= DirectTransfer_of_fields.

Definition DirectTransfer_valid (x : DirectTransfer) : Prop :=
  1 <= dt_nonce x <= UINT64_MAX /\
  0 <= dt_identifier x <= UINT64_MAX /\
  0 <= dt_transferred_amount x <= UINT256_MAX.

Record LockedTransfer : Type := mkLockedTransfer {
  lt_nonce : Z;
  lt_identifier : Z;
  lt_expiration : Z;
  lt_token : bytes;
  lt_channel : bytes;
  lt_recipient : bytes;
  lt_target : bytes;
  lt_initiator : bytes;
  lt_locksroot : bytes;
  lt_secrethash : bytes;
  lt_transferred_amount : Z;
  lt_amount : Z;
  lt_fee : Z;
  lt_signature : bytes;
}.

Definition LockedTransfer_schema : list (string * field_kind) :=
  [("nonce", nonce_kind); ("identifier", uint64); ("expiration", uint256);
    ("token", Binary); ("channel", Binary); ("recipient", Binary);
    ("target", Binary); ("initiator", Binary); ("locksroot", Binary);
    ("secrethash", Binary); ("transferred_amount", uint256);
    ("amount", uint256); ("fee", uint256); ("signature", Binary) ].

Definition LockedTransfer_fields (x : LockedTransfer) : list field_value :=
  [NumericV (lt_nonce x); NumericV (lt_identifier x);
    NumericV (lt_expiration x); BinaryV (lt_token x);
    BinaryV (lt_channel x); BinaryV (lt_recipient x);
    BinaryV (lt_target x); BinaryV (lt_initiator x);
    BinaryV (lt_locksroot x); BinaryV (lt_secrethash x);
    NumericV (lt_transferred_amount x); NumericV (lt_amount x);
    NumericV (lt_fee x); BinaryV (lt_signature x) ].

Definition LockedTransfer_of_fields (vs : list field_value) : option LockedTransfer :=
  match vs with
  | [NumericV nonce; NumericV identifier; NumericV expiration;
      BinaryV token; BinaryV channel; BinaryV recipient; BinaryV target;
      BinaryV initiator; BinaryV locksroot; BinaryV secrethash;
      NumericV transferred_amount; NumericV amount; NumericV fee;
      BinaryV signature ] =>
      Some (mkLockedTransfer nonce identifier expiration token channel recipient
           target initiator locksroot secrethash transferred_amount amount
           fee signature)
  | _ => None
  end.

Definition LockedTransfer_to_mapping (x : LockedTransfer) : gmap string string :=
  encode_fields LockedTransfer_schema (LockedTransfer_fields x).

Definition LockedTransfer_from_mapping (m : gmap string string)
  : option LockedTransfer :=
  decode_fields LockedTransfer_schema m ≫= LockedTransfer_of_fields.

Definition LockedTransfer_valid (x : LockedTransfer) : Prop :=
  1 <= lt_nonce x <= UINT64_MAX /\
  0 <= lt_identifier x <= UINT64_MAX /\
  0 <= lt_expiration x <= UINT256_MAX /\
  0 <= lt_transferred_amount x <= UINT256_MAX /\
  0 <= lt_amount x <= UINT256_MAX /\
  0 <= lt_fee x <= UINT256_MAX.

Record RefundTransfer : Type := mkRefundTransfer {
  rt_nonce : Z;
  rt_identifier : Z;
  rt_expiration : Z;
  rt_token : bytes;
  rt_channel : bytes;
  rt_recipient : bytes;
  rt_target : bytes;
  rt_initiator : bytes;
  rt_locksroot : bytes;
  rt_secrethash : bytes;
  rt_transferred_amount : Z;
  rt_amount : Z;
  rt_fee : Z;
  rt_signature : bytes;
}.

Definition RefundTransfer_schema : list (string * field_kind) :=
  [("nonce", nonce_kind); ("identifier", uint64); ("expiration", uint256);
    ("token", Binary); ("channel", Binary); ("recipient", Binary);
    ("target", Binary); ("initiator", Binary); ("locksroot", Binary);
    ("secrethash", Binary); ("transferred_amount", uint256);
    ("amount", uint256); ("fee", uint256); ("signature", Binary) ].

Definition RefundTransfer_fields (x : RefundTransfer) : list field_value :=
  [NumericV (rt_nonce x); NumericV (rt_identifier x);
    NumericV (rt_expiration x); BinaryV (rt_token x);
    BinaryV (rt_channel x); BinaryV (rt_recipient x);
    BinaryV (rt_target x); BinaryV (rt_initiator x);
    BinaryV (rt_locksroot x); BinaryV (rt_secrethash x);
    NumericV (rt_transferred_amount x); NumericV (rt_amount x);
    NumericV (rt_fee x); BinaryV (rt_signature x) ].

Definition RefundTransfer_of_fields (vs : list field_value) : option RefundTransfer :=
  match vs with
  | [NumericV nonce; NumericV identifier; NumericV expiration;
      BinaryV token; BinaryV channel; BinaryV recipient; BinaryV target;
      BinaryV initiator; BinaryV locksroot; BinaryV secrethash;
      NumericV transferred_amount; NumericV amount; NumericV fee;
      BinaryV signature ] =>
      Some (mkRefundTransfer nonce identifier expiration token channel recipient
           target initiator locksroot secrethash transferred_amount amount
           fee signature)
  | _ => None
  end.

Definition RefundTransfer_to_mapping (x : RefundTransfer) : gmap string string :=
  encode_fields RefundTransfer_schema (RefundTransfer_fields x).

Definition RefundTransfer_from_mapping (m : gmap string string)
  : option RefundTransfer :=
  decode_fields RefundTransfer_schema m ≫= RefundTransfer_of_fields.

Definition RefundTransfer_valid (x : RefundTransfer) : Prop :=
  1 <= rt_nonce x <= UINT64_MAX /\
  0 <= rt_identifier x <= UINT64_MAX /\
  0 <= rt_expiration x <= UINT256_MAX /\
  0 <= rt_transferred_amount x <= UINT256_MAX /\
  0 <= rt_amount x <= UINT256_MAX /\
  0 <= rt_fee x <= UINT256_MAX.

Inductive message : Type :=
| Direct (x : DirectTransfer)
| Locked (x : LockedTransfer)
| Refund (x : RefundTransfer).

Inductive message_class : Type :=
| DirectTransfer_class
| LockedTransfer_class
| RefundTransfer_class.

Definition class_of_message (x : message) : message_class :=
  match x with
  | Direct _ => DirectTransfer_class
  | Locked _ => LockedTransfer_class
  | Refund _ => RefundTransfer_class
  end.

(** [x.to_mapping()] *)
Definition to_mapping (x : message) : gmap string string :=
  match x with
  | Direct x => DirectTransfer_to_mapping x
  | Locked x => LockedTransfer_to_mapping x
  | Refund x => RefundTransfer_to_mapping x
  end.

(** [cls.from_mapping(m)], [None] when [m] is rejected *)
Definition from_mapping (cls : message_class) (m : gmap string string)
  : option message :=
  match cls with
  | DirectTransfer_class => Direct <$> DirectTransfer_from_mapping m
  | LockedTransfer_class => Locked <$> LockedTransfer_from_mapping m
  | RefundTransfer_class => Refund <$> RefundTransfer_from_mapping m
  end.

(** every numeric field within the range of its type *)
Definition valid (x : message) : Prop :=
  match x with
  | Direct x => DirectTransfer_valid x
  | Locked x => LockedTransfer_valid x
  | Refund x => RefundTransfer_valid x
  end.

End Messages.

(** ** The target machine *)

Section Target.
Context `{Externals}.

(** Modelled from the spec: the transition function of the target role
    belongs to [raiden/transfer/mediated_transfer/target.py], which is
    not among the sources.  The spec (4.3) gives it so: on receipt of a
    locked transfer whose target is this node, transition to
    [secret_request] and emit a secret request with the identifier,
    amount and secrethash; on receipt of a secret whose keccak256 is the
    secrethash, store the secret, transition to [reveal_secret] and emit
    the reveal to the payer; on receipt of a balance proof unlocking the
    lock, complete, with no further transitions; on a block at or beyond
    [lock.expiration - reveal_timeout], transition to [waiting_close] and
    request on-chain settlement; on a block at or beyond
    [lock.expiration], transition to [expired].  Events the spec gives no
    rule for leave the state as it is. *)
Inductive target_event : Type :=
| ReceiveLockedTransfer (route : Foreign) (transfer : LockedTransferSignedState)
| ReceiveSecretReveal (secret : bytes)
| ReceiveBalanceProof
| Block (block_number : Z).

Inductive target_effect : Type :=
| SendSecretRequest (identifier amount : Z) (secrethash : bytes)
| SendRevealSecret (secret : bytes)
| RequestOnChainSettlement.

Definition set_state (state : string) (target : TargetTransferState)
  : TargetTransferState :=
  {| tts_route := tts_route target;
     tts_transfer := tts_transfer target;
     tts_secret := tts_secret target;
     tts_state := state |}.

Definition set_secret (secret : bytes) (target : TargetTransferState)
  : TargetTransferState :=
  {| tts_route := tts_route target;
     tts_transfer := tts_transfer target;
     tts_secret := Some secret;
     tts_state := tts_state target |}.

(** [(state, event) -> (state', side_effects)]; the state is [None]
    before the transfer arrives and once the payment is complete. *)
Definition target_transition (our_address : bytes) (reveal_timeout : Z)
    (state : option TargetTransferState) (event : target_event)
  : option TargetTransferState * list target_effect :=
  match state, event with
  | None, ReceiveLockedTransfer route transfer =>
      if lts_target transfer == our_address then
        (Some (TargetTransferState__init__ route transfer),
         [SendSecretRequest (lts_identifier transfer)
            (htl_amount (lts_lock transfer))
            (htl_secrethash (lts_lock transfer))])
      else (None, [])
  | Some target, ReceiveSecretReveal secret =>
      if sha3 secret == htl_secrethash (lts_lock (tts_transfer target)) then
        (Some (set_state "reveal_secret" (set_secret secret target)),
         [SendRevealSecret secret])
      else (Some target, [])
  | Some target, ReceiveBalanceProof => (None, [])
  | Some target, Block block_number =>
      let expiration := htl_expiration (lts_lock (tts_transfer target)) in
      if (expiration <=? block_number)%Z then
        (Some (set_state "expired" target), [])
      else if (expiration - reveal_timeout <=? block_number)%Z then
        (Some (set_state "waiting_close" target), [RequestOnChainSettlement])
      else (Some target, [])
  | _, _ => (state, [])
  end.

(** The machine run over a sequence of events, the side effects in the
    order they were emitted. *)
Fixpoint target_run (our_address : bytes) (reveal_timeout : Z)
    (events : list target_event) (state : option TargetTransferState)
  : option TargetTransferState * list target_effect :=
  match events with
  | [] => (state, [])
  | event :: events' =>
      let '(state', effects) :=
        target_transition our_address reveal_timeout state event in
      let '(final, effects') :=
        target_run our_address reveal_timeout events' state' in
      (final, (effects ++ effects')%list)
  end.

(** What holds of a target state all along: its state is one of the
    valid ones, and while it is [secret_request] no secret is known. *)
Definition target_invariant (state : option TargetTransferState) : Prop :=
  match state with
  | Some target =>
      In (tts_state target) TargetTransferState_valid_states /\
      (tts_state target = "secret_request" -> tts_secret target = None)
  | None => True
  end.

(** Modelled from the spec: the constructors of [BalanceProofSignedState]
    and [HashTimeLockState] are not among the sources and are modelled as
    storing their arguments, which is what they do on values of the
    types the spec gives the fields (section 3): the nonce unsigned
    64-bit from 1, amounts and block numbers unsigned 256-bit, hashes of
    32 bytes, addresses of 20, the signature of 65. *)
Definition message_within_types (message : LockedTransferMessage) : Prop :=
  (1 <= msg_nonce message <= Messages.UINT64_MAX)%Z /\
  (0 <= msg_transferred_amount message <= Messages.UINT256_MAX)%Z /\
  length (deref (msg_locksroot message)) = 32%nat /\
  length (msg_channel message) = 20%nat /\
  length (msg_message_hash message) = 32%nat /\
  length (msg_signature message) = 65%nat /\
  length (msg_sender message) = 20%nat /\
  (0 <= lock_amount (msg_lock message) <= Messages.UINT256_MAX)%Z /\
  (0 <= lock_expiration (msg_lock message) <= Messages.UINT256_MAX)%Z /\
  length (lock_secrethash (msg_lock message)) = 32%nat.

End Target.

(** ** A sample environment, to run the model *)

Definition sample_address : bytes := repeat x2a 20%nat.

(** The hash is a stand-in: no property of it is used. *)
Definition sample_externals : Externals :=
  {| EMPTY_MERKLE_ROOT := repeat x00 32%nat;
     sha3 := fun data => rev data;
     T_Address := fun a => match a with PyBytes _ => true | _ => false end;
     Foreign := nat;
     Foreign__eq__ := Nat.eqb |}.

Definition sample_lock (amount expiration : Z) : HashTimeLockState :=
  mkHashTimeLockState amount expiration (repeat x11 32%nat).

Definition sample_root : bytes_ref := other_bytes (repeat x07 32%nat).

Definition sample_signed_proof (locksroot : bytes_ref)
  : BalanceProofSignedState :=
  mkBalanceProofSignedState 1 0 locksroot sample_address
    (repeat x22 32%nat) (repeat x33 65%nat) sample_address.

Definition sample_unsigned_proof (locksroot : bytes_ref)
  : BalanceProofUnsignedState :=
  mkBalanceProofUnsignedState 1 0 locksroot sample_address
    (repeat x22 32%nat).

Definition sample_payer (amount expiration : Z) : LockedTransferSignedState :=
  mkLockedTransferSignedState 7 sample_address
    (sample_signed_proof sample_root) (sample_lock amount expiration)
    sample_address sample_address.

Definition sample_payee (amount expiration : Z)
  : LockedTransferUnsignedState :=
  mkLockedTransferUnsignedState 7 sample_address
    (sample_unsigned_proof sample_root) (sample_lock amount expiration)
    sample_address sample_address.

Definition sample_LockedTransfer : Messages.LockedTransfer :=
  Messages.mkLockedTransfer 1 Messages.UINT64_MAX 50
    sample_address sample_address sample_address sample_address
    sample_address (repeat x07 32%nat) (repeat x11 32%nat)
    Messages.UINT256_MAX 0 Messages.UINT256_MAX (repeat x33 65%nat).

Definition sample_target (route : nat) (expiration : Z)
  : @TargetTransferState sample_externals :=
  @TargetTransferState__init__ sample_externals route
    (sample_payer 100 expiration).

Definition sample_message (locksroot : bytes_ref) : LockedTransferMessage :=
  mkLockedTransferMessage 1 0 locksroot sample_address (repeat x22 32%nat)
    (repeat x33 65%nat) sample_address
    (mkLock 100 50 (repeat x11 32%nat)) 7 sample_address sample_address
    sample_address.

(* ================================================================= *)
(** * Properties *)

Section StateProperties.
Context `{Externals}.

(** ** Python's [==] on the built-in field types decides equality *)

Lemma bytes__eq___spec (a b : bytes) : (a == b) = true <-> a = b.
Proof.
  unfold py_eq, bytes__eq__. revert b.
  induction a as [|x a IH]; intros [|y b]; simpl; try easy.
  rewrite andb_true_iff, IH. split.
  - intros [Hx ->]. apply byte_dec_bl in Hx. now subst.
  - intros [= -> ->]. split; [now apply byte_dec_lb | reflexivity].
Qed.

Lemma bytes__eq___refl (a : bytes) : (a == a) = true.
Proof. now apply bytes__eq___spec. Qed.

Lemma bytes_ref__eq___spec (a b : bytes_ref) :
  (a == b) = true <-> deref a = deref b.
Proof. apply bytes__eq___spec. Qed.

(** ** The guard on the locksroot *)

Lemma LockedTransferSignedState__init___constant
    identifier token balance_proof lock initiator target :
  bps_locksroot balance_proof = the_EMPTY_MERKLE_ROOT ->
  LockedTransferSignedState__init__ identifier token
    (VBalanceProofSignedState balance_proof) (VHashTimeLockState lock)
    initiator target
  = Raise (ValueError "balance_proof must not be empty").
Proof. intros Hroot. simpl. now rewrite Hroot. Qed.

Lemma LockedTransferSignedState__init___other
    identifier token balance_proof lock initiator target :
  is_EMPTY_MERKLE_ROOT (bps_locksroot balance_proof) = false ->
  LockedTransferSignedState__init__ identifier token
    (VBalanceProofSignedState balance_proof) (VHashTimeLockState lock)
    initiator target
  = Ok (mkLockedTransferSignedState identifier token balance_proof lock
          initiator target).
Proof. intros Hroot. simpl. now rewrite Hroot. Qed.

Lemma LockedTransferUnsignedState__init___constant
    identifier token balance_proof lock initiator target :
  bpu_locksroot balance_proof = the_EMPTY_MERKLE_ROOT ->
  LockedTransferUnsignedState__init__ identifier token
    (VBalanceProofUnsignedState balance_proof) (VHashTimeLockState lock)
    initiator target
  = Raise (ValueError "balance_proof must not be empty").
Proof. intros Hroot. simpl. now rewrite Hroot. Qed.

Lemma LockedTransferUnsignedState__init___other
    identifier token balance_proof lock initiator target :
  is_EMPTY_MERKLE_ROOT (bpu_locksroot balance_proof) = false ->
  LockedTransferUnsignedState__init__ identifier token
    (VBalanceProofUnsignedState balance_proof) (VHashTimeLockState lock)
    initiator target
  = Ok (mkLockedTransferUnsignedState identifier token balance_proof lock
          initiator target).
Proof. intros Hroot. simpl. now rewrite Hroot. Qed.

(** A reference that is not the constant object may still hold the
    content of the constant. *)
Lemma copy_of_EMPTY_MERKLE_ROOT :
  is_EMPTY_MERKLE_ROOT (other_bytes EMPTY_MERKLE_ROOT) = false /\
  (other_bytes EMPTY_MERKLE_ROOT == the_EMPTY_MERKLE_ROOT) = true.
Proof. split; [reflexivity | apply bytes__eq___refl]. Qed.

(** A reference whose content differs from the constant's is not the
    constant object, so the guard lets every non-empty locksroot through. *)
Lemma not_equal_not_identical (r : bytes_ref) :
  (r == the_EMPTY_MERKLE_ROOT) = false -> is_EMPTY_MERKLE_ROOT r = false.
Proof.
  destruct r as [|content]; [| reflexivity].
  intros Hne. unfold py_eq, bytes_ref__eq__ in Hne.
  now rewrite bytes__eq___refl in Hne.
Qed.

(** ** Constructors *)

(** C3, at the input where the code departs from it: a balance proof
    whose locksroot is another [bytes] object with the content of
    [EMPTY_MERKLE_ROOT] passes the identity test of both constructors,
    which return a transfer whose locksroot equals the empty root. *)
Theorem LockedTransfer_init_accepts_equal_empty_root
    (identifier nonce transferred_amount : Z)
    (token channel message_hash signature sender initiator target : bytes)
    (lock : HashTimeLockState) :
  let unsigned :=
    mkBalanceProofUnsignedState nonce transferred_amount
      (other_bytes EMPTY_MERKLE_ROOT) channel message_hash in
  let signed :=
    mkBalanceProofSignedState nonce transferred_amount
      (other_bytes EMPTY_MERKLE_ROOT) channel message_hash signature sender in
  (exists t,
      LockedTransferUnsignedState__init__ identifier token
        (VBalanceProofUnsignedState unsigned) (VHashTimeLockState lock)
        initiator target = Ok t /\
      (bpu_locksroot (ltu_balance_proof t) == the_EMPTY_MERKLE_ROOT) = true) /\
  (exists t,
      LockedTransferSignedState__init__ identifier token
        (VBalanceProofSignedState signed) (VHashTimeLockState lock)
        initiator target = Ok t /\
      (bps_locksroot (lts_balance_proof t) == the_EMPTY_MERKLE_ROOT) = true).
Proof.
  split; eexists; (split; [reflexivity | apply bytes__eq___refl]).
Qed.

(** What [lockedtransfersigned_from_message] returns when the guard on
    the locksroot lets the message through. *)
Lemma lockedtransfersigned_from_message_other (message : LockedTransferMessage) :
  is_EMPTY_MERKLE_ROOT (msg_locksroot message) = false ->
  lockedtransfersigned_from_message message
  = Ok {| lts_identifier := msg_identifier message;
          lts_token := msg_token message;
          lts_balance_proof :=
            {| bps_nonce := msg_nonce message;
               bps_transferred_amount := msg_transferred_amount message;
               bps_locksroot := msg_locksroot message;
               bps_channel_identifier := msg_channel message;
               bps_message_hash := msg_message_hash message;
               bps_signature := msg_signature message;
               bps_sender := msg_sender message |};
          lts_lock :=
            {| htl_amount := lock_amount (msg_lock message);
               htl_expiration := lock_expiration (msg_lock message);
               htl_secrethash := lock_secrethash (msg_lock message) |};
          lts_initiator := msg_initiator message;
          lts_target := msg_target message |}.
Proof.
  intros Hroot. unfold lockedtransfersigned_from_message.
  now rewrite LockedTransferSignedState__init___other.
Qed.

Lemma lockedtransfersigned_from_message_constant
    (message : LockedTransferMessage) :
  msg_locksroot message = the_EMPTY_MERKLE_ROOT ->
  lockedtransfersigned_from_message message
  = Raise (ValueError "balance_proof must not be empty").
Proof.
  intros Hroot. unfold lockedtransfersigned_from_message.
  now rewrite LockedTransferSignedState__init___constant.
Qed.

(** C10, at the input where the code departs from it: for a message
    whose locksroot is a [bytes] object other than the constant but with
    its content (as any locksroot decoded from the wire is),
    [lockedtransfersigned_from_message] raises nothing and returns a
    transfer whose balance proof has the empty root. *)
Theorem lockedtransfersigned_from_message_accepts_equal_empty_root
    (nonce transferred_amount identifier : Z)
    (channel message_hash signature sender token initiator target : bytes)
    (lock : Lock) :
  let message :=
    mkLockedTransferMessage nonce transferred_amount
      (other_bytes EMPTY_MERKLE_ROOT) channel message_hash signature sender
      lock identifier token initiator target in
  (msg_locksroot message == the_EMPTY_MERKLE_ROOT) = true /\
  exists t,
    lockedtransfersigned_from_message message = Ok t /\
    (bps_locksroot (lts_balance_proof t) == the_EMPTY_MERKLE_ROOT) = true.
Proof.
  split; [apply bytes__eq___refl |].
  eexists. split; [reflexivity | apply bytes__eq___refl].
Qed.

(** C5: a transfer description built from a secret carries the hash of
    that secret, and every other field is the constructor's argument,
    unchanged. *)
Theorem TransferDescriptionWithSecretState_init_fields
    (identifier amount : Z)
    (registry token initiator target secret : bytes) :
  let description :=
    TransferDescriptionWithSecretState__init__ identifier amount registry
      token initiator target secret in
  td_secrethash description = sha3 secret /\
  td_identifier description = identifier /\
  td_amount description = amount /\
  td_registry description = registry /\
  td_token description = token /\
  td_initiator description = initiator /\
  td_target description = target /\
  td_secret description = secret.
Proof. repeat split. Qed.

(** Each transition of the target machine keeps the invariant. *)
Lemma target_transition_invariant
    (our_address : bytes) (reveal_timeout : Z)
    (state : option TargetTransferState) (event : target_event) :
  target_invariant state ->
  target_invariant
    (fst (target_transition our_address reveal_timeout state event)).
Proof.
  unfold target_transition.
  destruct state as [target|], event as [route transfer|secret| |block_number];
    cbn [target_invariant fst]; trivial.
  - intros Hinv.
    destruct (sha3 secret == htl_secrethash (lts_lock (tts_transfer target)));
      cbn [target_invariant fst]; [| exact Hinv].
    split; [right; left; reflexivity | discriminate].
  - intros Hinv. cbv zeta.
    destruct (htl_expiration (lts_lock (tts_transfer target)) <=? block_number)%Z;
      [cbn; split; [do 3 right; left; reflexivity | discriminate] |].
    destruct (htl_expiration (lts_lock (tts_transfer target)) - reveal_timeout
              <=? block_number)%Z;
      [cbn; split; [do 2 right; left; reflexivity | discriminate] |].
    exact Hinv.
  - intros _.
    destruct (lts_target transfer == our_address);
      cbn [target_invariant fst]; [| trivial].
    split; [left; reflexivity | reflexivity].
Qed.

Lemma target_run_invariant
    (our_address : bytes) (reveal_timeout : Z)
    (events : list target_event) (state : option TargetTransferState) :
  target_invariant state ->
  target_invariant (fst (target_run our_address reveal_timeout events state)).
Proof.
  revert state. induction events as [|event events IH]; intros state Hinv.
  - exact Hinv.
  - cbn [target_run].
    pose proof (target_transition_invariant our_address reveal_timeout
                  state event Hinv) as Hstep.
    destruct (target_transition our_address reveal_timeout state event)
      as [state' effects].
    specialize (IH state' Hstep).
    destruct (target_run our_address reveal_timeout events state')
      as [final effects'].
    exact IH.
Qed.

(** C6: the constructor puts a target state in [secret_request], with no
    secret; the machine builds that state on receipt of a locked
    transfer addressed to this node; and whatever events follow, the
    state of the target stays one of the four valid ones, with no secret
    known as long as it is [secret_request]. *)
Theorem TargetTransferState_state_valid :
  (forall (route : Foreign) (transfer : LockedTransferSignedState),
      let target := TargetTransferState__init__ route transfer in
      tts_state target = "secret_request" /\
      tts_secret target = None /\
      tts_route target = route /\
      tts_transfer target = transfer) /\
  TargetTransferState_valid_states
  = [ "secret_request"; "reveal_secret"; "waiting_close"; "expired" ] /\
  (forall (our_address : bytes) (reveal_timeout : Z) (route : Foreign)
          (transfer : LockedTransferSignedState),
      (lts_target transfer == our_address) = true ->
      target_transition our_address reveal_timeout None
        (ReceiveLockedTransfer route transfer)
      = (Some (TargetTransferState__init__ route transfer),
         [SendSecretRequest (lts_identifier transfer)
            (htl_amount (lts_lock transfer))
            (htl_secrethash (lts_lock transfer))])) /\
  (forall (our_address : bytes) (reveal_timeout : Z)
          (events : list target_event) (target : TargetTransferState),
      fst (target_run our_address reveal_timeout events None) = Some target ->
      In (tts_state target) TargetTransferState_valid_states /\
      (tts_state target = "secret_request" -> tts_secret target = None)).
Proof.
  split; [repeat split |]. split; [reflexivity |]. split.
  - intros our_address reveal_timeout route transfer Hours.
    cbn [target_transition]. now rewrite Hours.
  - intros our_address reveal_timeout events target Hrun.
    pose proof (target_run_invariant our_address reveal_timeout events None I)
      as Hinv.
    rewrite Hrun in Hinv. exact Hinv.
Qed.

(** C8: the constructor returns a pair exactly for a signed payer
    transfer, an address and an unsigned payee transfer, the pair then
    holds them and both sides are pending; for any other arguments it
    raises [ValueError]. *)
Theorem MediationPairState_init_guards
    (payer_transfer payee_address payee_transfer : value) :
  match MediationPairState__init__ payer_transfer payee_address
          payee_transfer with
  | Ok state =>
      payer_transfer = VLockedTransferSignedState (mp_payer_transfer state) /\
      payee_address = VAtom (mp_payee_address state) /\
      isinstance_T_Address payee_address = true /\
      payee_transfer = VLockedTransferUnsignedState (mp_payee_transfer state) /\
      mp_payer_state state = "payer_pending" /\
      mp_payee_state state = "payee_pending"
  | Raise e =>
      (exists msg, e = ValueError msg) /\
      (class_of payer_transfer <> Some LockedTransferSignedState_cls \/
       isinstance_T_Address payee_address = false \/
       class_of payee_transfer <> Some LockedTransferUnsignedState_cls)
  end.
Proof.
  unfold MediationPairState__init__.
  destruct payer_transfer;
    try (split; [eexists; reflexivity | left; discriminate]).
  destruct payee_address as [address| | | | | | | | | | | |];
    try (split; [eexists; reflexivity | right; left; reflexivity]).
  simpl. destruct (T_Address address) eqn:Haddress;
    [| split; [eexists; reflexivity | right; left; reflexivity]].
  destruct payee_transfer;
    try (split; [eexists; reflexivity | right; right; discriminate]).
  simpl. repeat split; trivial.
Qed.

(** C9: a fresh mediator state knows no secret and has no pair; a fresh
    initiator state has no transfer, secret request or reveal yet. *)
Theorem fresh_role_states_unset
    (secrethash channel_identifier : bytes)
    (transfer_description : TransferDescriptionWithSecretState) :
  (let mediator := MediatorTransferState__init__ secrethash in
   mts_secrethash mediator = secrethash /\
   mts_secret mediator = None /\
   mts_transfers_pair mediator = []) /\
  (exists initiator,
     InitiatorTransferState__init__
       (VTransferDescriptionWithSecretState transfer_description)
       channel_identifier = Ok initiator /\
     its_transfer_description initiator = transfer_description /\
     its_channel_identifier initiator = channel_identifier /\
     its_transfer initiator = None /\
     its_secretrequest initiator = None /\
     its_revealsecret initiator = None).
Proof.
  split; [repeat split |].
  eexists. repeat split.
Qed.

(** ** Equality *)

Ltac eq_chain := simpl; rewrite ?andb_true_iff; tauto.

(** C7: on each class of the module [==] holds of two of its values
    exactly when the compared fields are pairwise [==], [!=] is its
    negation, and a value of one class never equals a value of another
    class, whichever side it stands on. *)
Theorem equality_is_structural :
  (forall x y : InitiatorPaymentState,
      InitiatorPaymentState__eq__ x (VInitiatorPaymentState y) = true <->
      (ips_initiator x == ips_initiator y) = true /\
      (ips_cancelled_channels x == ips_cancelled_channels y) = true) /\
  (forall x y : InitiatorTransferState,
      InitiatorTransferState__eq__ x (VInitiatorTransferState y) = true <->
      (its_transfer_description x == its_transfer_description y) = true /\
      (its_channel_identifier x == its_channel_identifier y) = true /\
      (its_transfer x == its_transfer y) = true /\
      (its_secretrequest x == its_secretrequest y) = true /\
      (its_revealsecret x == its_revealsecret y) = true) /\
  (forall x y : MediatorTransferState,
      MediatorTransferState__eq__ x (VMediatorTransferState y) = true <->
      (mts_secrethash x == mts_secrethash y) = true /\
      (mts_secret x == mts_secret y) = true /\
      (mts_transfers_pair x == mts_transfers_pair y) = true) /\
  (forall x y : TargetTransferState,
      TargetTransferState__eq__ x (VTargetTransferState y) = true <->
      (tts_route x == tts_route y) = true /\
      (tts_transfer x == tts_transfer y) = true /\
      (tts_secret x == tts_secret y) = true /\
      (tts_state x == tts_state y) = true) /\
  (forall x y : LockedTransferUnsignedState,
      LockedTransferUnsignedState__eq__ x (VLockedTransferUnsignedState y)
      = true <->
      (ltu_identifier x == ltu_identifier y) = true /\
      (ltu_token x == ltu_token y) = true /\
      (ltu_balance_proof x == ltu_balance_proof y) = true /\
      (ltu_lock x == ltu_lock y) = true /\
      (ltu_initiator x == ltu_initiator y) = true /\
      (ltu_target x == ltu_target y) = true) /\
  (forall x y : LockedTransferSignedState,
      LockedTransferSignedState__eq__ x (VLockedTransferSignedState y)
      = true <->
      (lts_identifier x == lts_identifier y) = true /\
      (lts_token x == lts_token y) = true /\
      (lts_balance_proof x == lts_balance_proof y) = true /\
      (lts_lock x == lts_lock y) = true /\
      (lts_initiator x == lts_initiator y) = true /\
      (lts_target x == lts_target y) = true) /\
  (forall x y : TransferDescriptionWithSecretState,
      TransferDescriptionWithSecretState__eq__ x
        (VTransferDescriptionWithSecretState y) = true <->
      (td_identifier x == td_identifier y) = true /\
      (td_amount x == td_amount y) = true /\
      (td_registry x == td_registry y) = true /\
      (td_token x == td_token y) = true /\
      (td_initiator x == td_initiator y) = true /\
      (td_target x == td_target y) = true /\
      (td_secret x == td_secret y) = true /\
      (td_secrethash x == td_secrethash y) = true) /\
  (forall x y : MediationPairState,
      MediationPairState__eq__ x (VMediationPairState y) = true <->
      (mp_payee_address x == mp_payee_address y) = true /\
      (mp_payee_transfer x == mp_payee_transfer y) = true /\
      (mp_payee_state x == mp_payee_state y) = true /\
      (mp_payer_transfer x == mp_payer_transfer y) = true /\
      (mp_payer_state x == mp_payer_state y) = true) /\
  (forall x y : value, value__ne__ x y = negb (value__eq__ x y)) /\
  (forall x y : value,
      class_of x <> None -> class_of y <> class_of x ->
      value__eq__ x y = false /\ value__eq__ y x = false).
Proof.
  repeat match goal with |- _ /\ _ => split end;
    try (intros x y; eq_chain).
  - intros [] y; reflexivity.
  - intros x y Hx Hxy.
    destruct x; simpl in Hx; try congruence;
      destruct y; simpl in Hxy; try congruence; split; reflexivity.
Qed.

End StateProperties.

(** ** The round trip through the mapping *)

Section MessageProperties.
Import Messages.
Local Open Scope Z_scope.

Lemma to_int_not_nil (n : Z) (sign : Decimal.uint -> Decimal.signed_int) :
  (sign = Decimal.Pos \/ sign = Decimal.Neg) ->
  Z.to_int n <> sign Decimal.Nil.
Proof.
  intros [-> | ->]; destruct n; simpl; try discriminate;
    intros [= Hnil]; now apply DecimalPos.Unsigned.to_uint_nonnil in Hnil.
Qed.

Lemma decode_encode_number (n : Z) : decode_number (encode_number n) = Some n.
Proof.
  unfold decode_number, encode_number.
  rewrite NilZero.isi by (apply to_int_not_nil; auto).
  simpl. now rewrite DecimalZ.of_to.
Qed.

Lemma hex_of_byte (x : byte) :
  let n := Byte.to_N x in
  hex_value (hex_digit (n / 16)) = Some (n / 16)%N /\
  hex_value (hex_digit (n mod 16)) = Some (n mod 16)%N /\
  Byte.of_N (16 * (n / 16) + n mod 16) = Some x.
Proof. destruct x; repeat split. Qed.

Lemma decode_encode_hex (b : bytes) : decode_hex (encode_hex b) = Some b.
Proof.
  induction b as [|x b IH]; [reflexivity |].
  destruct (hex_of_byte x) as (Hhi & Hlo & Hbyte).
  cbn [encode_hex decode_hex]. cbv zeta.
  rewrite Hhi, Hlo. cbn [mbind option_bind].
  rewrite Hbyte, IH. reflexivity.
Qed.

Lemma data_decoder_encoder (b : bytes) : data_decoder (data_encoder b) = Some b.
Proof. unfold data_decoder, data_encoder. apply decode_encode_hex. Qed.

Lemma decode_encode_field (k : field_kind) (v : field_value) :
  in_kind k v -> decode_field k (encode_field v) = Some v.
Proof.
  destruct k as [lo hi|], v as [n|b];
    cbn [in_kind decode_field encode_field]; try contradiction.
  - intros [Hlo Hhi]. rewrite decode_encode_number. cbn [mbind option_bind].
    apply Z.leb_le in Hlo, Hhi. now rewrite Hlo, Hhi.
  - intros _. now rewrite data_decoder_encoder.
Qed.

(** A key that is no field name does not matter to the decoder. *)
Lemma decode_fields_insert_fresh
    (schema : list (string * field_kind)) (name s : string)
    (m : gmap string string) :
  name ∉ schema.*1 ->
  decode_fields schema (<[name := s]> m) = decode_fields schema m.
Proof.
  induction schema as [|[name' k] schema IH]; [reflexivity |].
  intros Hfresh. cbn [fmap list_fmap fst] in Hfresh.
  apply not_elem_of_cons in Hfresh as [Hne Hfresh].
  cbn [decode_fields].
  rewrite lookup_insert_ne by done.
  now rewrite IH.
Qed.

Lemma decode_encode_fields
    (schema : list (string * field_kind)) (vs : list field_value) :
  NoDup schema.*1 ->
  Forall2 in_kind schema.*2 vs ->
  decode_fields schema (encode_fields schema vs) = Some vs.
Proof.
  revert vs. induction schema as [|[name k] schema IH]; intros vs Hnames Hkinds.
  - inversion Hkinds. reflexivity.
  - cbn [fmap list_fmap fst snd] in Hnames, Hkinds.
    inversion Hkinds as [|k' v ks vs' Hv Hvs]; subst.
    apply NoDup_cons in Hnames as [Hfresh Hnames].
    cbn [encode_fields decode_fields].
    rewrite lookup_insert_eq. cbn [mbind option_bind].
    rewrite (decode_encode_field _ _ Hv). cbn [mbind option_bind].
    rewrite decode_fields_insert_fresh by assumption.
    now rewrite IH.
Qed.

Ltac names_distinct := apply (bool_decide_unpack _); vm_compute; exact I.

Ltac kinds_hold :=
  repeat (apply List.Forall2_cons;
          [unfold nonce_kind, uint64, uint256; cbn [in_kind snd]; trivial |]);
  apply List.Forall2_nil.

Lemma DirectTransfer_roundtrip (x : DirectTransfer) :
  DirectTransfer_valid x ->
  DirectTransfer_from_mapping (DirectTransfer_to_mapping x) = Some x.
Proof.
  intros (Hnonce & Hidentifier & Hamount).
  unfold DirectTransfer_from_mapping, DirectTransfer_to_mapping.
  rewrite decode_encode_fields.
  - now destruct x.
  - names_distinct.
  - kinds_hold.
Qed.

Lemma LockedTransfer_roundtrip (x : LockedTransfer) :
  LockedTransfer_valid x ->
  LockedTransfer_from_mapping (LockedTransfer_to_mapping x) = Some x.
Proof.
  intros (Hnonce & Hidentifier & Hexpiration & Htransferred & Hamount & Hfee).
  unfold LockedTransfer_from_mapping, LockedTransfer_to_mapping.
  rewrite decode_encode_fields.
  - now destruct x.
  - names_distinct.
  - kinds_hold.
Qed.

Lemma RefundTransfer_roundtrip (x : RefundTransfer) :
  RefundTransfer_valid x ->
  RefundTransfer_from_mapping (RefundTransfer_to_mapping x) = Some x.
Proof.
  intros (Hnonce & Hidentifier & Hexpiration & Htransferred & Hamount & Hfee).
  unfold RefundTransfer_from_mapping, RefundTransfer_to_mapping.
  rewrite decode_encode_fields.
  - now destruct x.
  - names_distinct.
  - kinds_hold.
Qed.

(** The three tests of [test_dict_encoding.py]: every combination of the
    ends of the ranges survives the round trip, whatever the other
    fields. *)
Ltac at_range_ends :=
  unfold UINT64_MAX, UINT256_MAX in *; cbn [In] in *; lia.

Lemma test_direct_transfer_min_max (x : DirectTransfer) :
  In (dt_identifier x) [0; UINT64_MAX] ->
  In (dt_nonce x) [1; UINT64_MAX] ->
  In (dt_transferred_amount x) [0; UINT256_MAX] ->
  DirectTransfer_from_mapping (DirectTransfer_to_mapping x) = Some x.
Proof.
  intros Hidentifier Hnonce Htransferred.
  apply DirectTransfer_roundtrip. repeat split; at_range_ends.
Qed.

Lemma test_mediated_transfer_min_max (x : LockedTransfer) :
  In (lt_amount x) [0; UINT256_MAX] ->
  In (lt_identifier x) [0; UINT64_MAX] ->
  In (lt_nonce x) [1; UINT64_MAX] ->
  In (lt_transferred_amount x) [0; UINT256_MAX] ->
  In (lt_fee x) [0; UINT256_MAX] ->
  0 <= lt_expiration x <= UINT256_MAX ->
  LockedTransfer_from_mapping (LockedTransfer_to_mapping x) = Some x.
Proof.
  intros Hamount Hidentifier Hnonce Htransferred Hfee Hexpiration.
  apply LockedTransfer_roundtrip. repeat split; at_range_ends.
Qed.

Lemma test_refund_transfer_min_max (x : RefundTransfer) :
  In (rt_amount x) [0; UINT256_MAX] ->
  In (rt_identifier x) [0; UINT64_MAX] ->
  In (rt_nonce x) [1; UINT64_MAX] ->
  In (rt_transferred_amount x) [0; UINT256_MAX] ->
  0 <= rt_fee x <= UINT256_MAX ->
  0 <= rt_expiration x <= UINT256_MAX ->
  RefundTransfer_from_mapping (RefundTransfer_to_mapping x) = Some x.
Proof.
  intros Hamount Hidentifier Hnonce Htransferred Hfee Hexpiration.
  apply RefundTransfer_roundtrip. repeat split; at_range_ends.
Qed.

(** C4: reading back the mapping of a direct, locked or refund transfer
    whose numeric fields are within their ranges gives the message
    itself. *)
Theorem from_mapping_to_mapping (x : message) :
  valid x -> from_mapping (class_of_message x) (to_mapping x) = Some x.
Proof.
  destruct x as [x|x|x]; intros Hvalid;
    cbn [from_mapping class_of_message to_mapping valid] in *.
  - rewrite DirectTransfer_roundtrip by assumption. reflexivity.
  - rewrite LockedTransfer_roundtrip by assumption. reflexivity.
  - rewrite RefundTransfer_roundtrip by assumption. reflexivity.
Qed.

End MessageProperties.

(** ** Laws of [==] *)

Section EqualityLaws.
Context `{Externals}.

(** *** The built-in types *)

Lemma Z__eq___spec (a b : Z) : (a == b) = true <-> a = b.
Proof. apply Z.eqb_eq. Qed.

Lemma str__eq___spec (a b : string) : (a == b) = true <-> a = b.
Proof. apply String.eqb_eq. Qed.

Lemma atom__eq___spec (a b : atom) : (a == b) = true <-> a = b.
Proof.
  unfold py_eq, atom__eq__.
  destruct a as [|x|x|x], b as [|y|y|y]; simpl; try easy.
  - rewrite Z.eqb_eq. split; congruence.
  - rewrite (bytes__eq___spec x y). split; congruence.
  - rewrite String.eqb_eq. split; congruence.
Qed.

Lemma option__eq___spec {A : Type} `{PyEq A} (a b : option A) :
  (forall x y : A, (x == y) = true <-> x = y) ->
  (a == b) = true <-> a = b.
Proof.
  intros Hspec. destruct a as [x|], b as [y|]; simpl; try easy.
  unfold py_eq, option__eq__. simpl. rewrite Hspec. split; congruence.
Qed.

Lemma list__eq___Forall2 {A : Type} `{PyEq A} (a b : list A) :
  (a == b) = true <-> Forall2 (fun x y => (x == y) = true) a b.
Proof.
  unfold py_eq at 1, list__eq__. revert b.
  induction a as [|x a IH]; intros [|y b]; simpl.
  - split; [constructor | reflexivity].
  - split; [discriminate | intros Hnil; inversion Hnil].
  - split; [discriminate | intros Hnil; inversion Hnil].
  - rewrite andb_true_iff, IH. split.
    + intros [Hhead Htail]. now constructor.
    + intros Hcons. inversion Hcons; subst. now split.
Qed.

Lemma list__eq___spec {A : Type} `{PyEq A} (a b : list A) :
  (forall x y : A, (x == y) = true <-> x = y) ->
  (a == b) = true <-> a = b.
Proof.
  intros Hspec. rewrite list__eq___Forall2. split.
  - induction 1 as [|x y a b Hxy _ IH]; [reflexivity |].
    apply Hspec in Hxy. now subst.
  - intros <-. induction a; constructor; [now apply Hspec | assumption].
Qed.

(** *** Reflexivity, symmetry and transitivity, type by type *)

Create HintDb py_refl discriminated.
Create HintDb py_sym discriminated.
Create HintDb py_trans discriminated.

Lemma spec_reflexive {A : Type} `{PyEq A} :
  (forall x y : A, (x == y) = true <-> x = y) ->
  forall a : A, (a == a) = true.
Proof. intros Hspec a. now apply Hspec. Qed.

Lemma spec_symmetric {A : Type} `{PyEq A} :
  (forall x y : A, (x == y) = true <-> x = y) ->
  forall a b : A, (a == b) = true -> (b == a) = true.
Proof. intros Hspec a b Hab. apply Hspec. symmetry. now apply Hspec. Qed.

Lemma spec_transitive {A : Type} `{PyEq A} :
  (forall x y : A, (x == y) = true <-> x = y) ->
  forall a b c : A, (a == b) = true -> (b == c) = true -> (a == c) = true.
Proof.
  intros Hspec a b c Hab Hbc. apply Hspec in Hab, Hbc. apply Hspec. congruence.
Qed.

Lemma option__eq___refl {A : Type} `{PyEq A} :
  (forall a : A, (a == a) = true) ->
  forall a : option A, (a == a) = true.
Proof. intros Hrefl [a|]; [apply Hrefl | reflexivity]. Qed.

Lemma option__eq___sym {A : Type} `{PyEq A} :
  (forall a b : A, (a == b) = true -> (b == a) = true) ->
  forall a b : option A, (a == b) = true -> (b == a) = true.
Proof. intros Hsym [a|] [b|]; try easy. apply Hsym. Qed.

Lemma option__eq___trans {A : Type} `{PyEq A} :
  (forall a b c : A, (a == b) = true -> (b == c) = true -> (a == c) = true) ->
  forall a b c : option A,
    (a == b) = true -> (b == c) = true -> (a == c) = true.
Proof. intros Htrans [a|] [b|] [c|]; try easy. apply Htrans. Qed.

Lemma list__eq___refl {A : Type} `{PyEq A} :
  (forall a : A, (a == a) = true) ->
  forall a : list A, (a == a) = true.
Proof.
  intros Hrefl a. apply list__eq___Forall2.
  induction a; constructor; [apply Hrefl | assumption].
Qed.

Lemma list__eq___sym {A : Type} `{PyEq A} :
  (forall a b : A, (a == b) = true -> (b == a) = true) ->
  forall a b : list A, (a == b) = true -> (b == a) = true.
Proof.
  intros Hsym a b Hab. apply list__eq___Forall2 in Hab.
  apply list__eq___Forall2.
  induction Hab; constructor; [now apply Hsym | assumption].
Qed.

Lemma list__eq___trans {A : Type} `{PyEq A} :
  (forall a b c : A, (a == b) = true -> (b == c) = true -> (a == c) = true) ->
  forall a b c : list A,
    (a == b) = true -> (b == c) = true -> (a == c) = true.
Proof.
  intros Htrans a b c Hab Hbc.
  apply list__eq___Forall2 in Hab, Hbc. apply list__eq___Forall2.
  revert c Hbc. induction Hab as [|x y a b Hxy _ IH]; intros c Hbc;
    inversion Hbc; subst; constructor; eauto.
Qed.

Lemma Z__eq___refl (a : Z) : (a == a) = true.
Proof. exact (spec_reflexive Z__eq___spec a). Qed.

Lemma Z__eq___sym (a b : Z) : (a == b) = true -> (b == a) = true.
Proof. exact (spec_symmetric Z__eq___spec a b). Qed.

Lemma Z__eq___trans (a b c : Z) :
  (a == b) = true -> (b == c) = true -> (a == c) = true.
Proof. exact (spec_transitive Z__eq___spec a b c). Qed.

Lemma bytes__eq___sym (a b : bytes) : (a == b) = true -> (b == a) = true.
Proof. exact (spec_symmetric bytes__eq___spec a b). Qed.

Lemma bytes__eq___trans (a b c : bytes) :
  (a == b) = true -> (b == c) = true -> (a == c) = true.
Proof. exact (spec_transitive bytes__eq___spec a b c). Qed.

Lemma str__eq___refl (a : string) : (a == a) = true.
Proof. exact (spec_reflexive str__eq___spec a). Qed.

Lemma str__eq___sym (a b : string) : (a == b) = true -> (b == a) = true.
Proof. exact (spec_symmetric str__eq___spec a b). Qed.

Lemma str__eq___trans (a b c : string) :
  (a == b) = true -> (b == c) = true -> (a == c) = true.
Proof. exact (spec_transitive str__eq___spec a b c). Qed.

Lemma atom__eq___refl (a : atom) : (a == a) = true.
Proof. exact (spec_reflexive atom__eq___spec a). Qed.

Lemma atom__eq___sym (a b : atom) : (a == b) = true -> (b == a) = true.
Proof. exact (spec_symmetric atom__eq___spec a b). Qed.

Lemma atom__eq___trans (a b c : atom) :
  (a == b) = true -> (b == c) = true -> (a == c) = true.
Proof. exact (spec_transitive atom__eq___spec a b c). Qed.

Lemma bytes_ref__eq___refl (a : bytes_ref) : (a == a) = true.
Proof. apply bytes__eq___refl. Qed.

Lemma bytes_ref__eq___sym (a b : bytes_ref) :
  (a == b) = true -> (b == a) = true.
Proof.
  intros Hab. apply bytes_ref__eq___spec in Hab.
  now apply bytes_ref__eq___spec.
Qed.

Lemma bytes_ref__eq___trans (a b c : bytes_ref) :
  (a == b) = true -> (b == c) = true -> (a == c) = true.
Proof.
  intros Hab Hbc. apply bytes_ref__eq___spec in Hab, Hbc.
  apply bytes_ref__eq___spec. congruence.
Qed.

#[local] Hint Resolve Z__eq___refl bytes__eq___refl str__eq___refl
  atom__eq___refl bytes_ref__eq___refl : py_refl.
#[local] Hint Resolve Z__eq___sym bytes__eq___sym str__eq___sym
  atom__eq___sym bytes_ref__eq___sym : py_sym.
#[local] Hint Resolve Z__eq___trans bytes__eq___trans str__eq___trans
  atom__eq___trans bytes_ref__eq___trans : py_trans.

(** The chain of comparisons of one [__eq__], once its [isinstance]
    test has passed. *)
Ltac open_chain :=
  unfold py_eq at 1;
  unfold HashTimeLockState_PyEq, BalanceProofUnsignedState_PyEq,
    BalanceProofSignedState_PyEq, LockedTransferUnsignedState_PyEq,
    LockedTransferSignedState_PyEq, TransferDescriptionWithSecretState_PyEq,
    MediationPairState_PyEq;
  unfold HashTimeLockState__eq__, BalanceProofUnsignedState__eq__,
    BalanceProofSignedState__eq__, LockedTransferUnsignedState__eq__,
    LockedTransferSignedState__eq__,
    TransferDescriptionWithSecretState__eq__, MediationPairState__eq__;
  rewrite ?andb_true_iff.

Ltac open_chain_in Hchain :=
  unfold py_eq at 1 in Hchain;
  unfold HashTimeLockState_PyEq, BalanceProofUnsignedState_PyEq,
    BalanceProofSignedState_PyEq, LockedTransferUnsignedState_PyEq,
    LockedTransferSignedState_PyEq, TransferDescriptionWithSecretState_PyEq,
    MediationPairState_PyEq in Hchain;
  unfold HashTimeLockState__eq__, BalanceProofUnsignedState__eq__,
    BalanceProofSignedState__eq__, LockedTransferUnsignedState__eq__,
    LockedTransferSignedState__eq__,
    TransferDescriptionWithSecretState__eq__, MediationPairState__eq__
    in Hchain;
  rewrite ?andb_true_iff in Hchain.

Ltac chain_reflexive := intros a; open_chain; repeat split; auto with py_refl.

Ltac chain_symmetric :=
  intros a b Hab; open_chain_in Hab; open_chain;
  intuition auto with py_sym.

Ltac chain_transitive :=
  intros a b c Hab Hbc; open_chain_in Hab; open_chain_in Hbc; open_chain;
  intuition eauto with py_trans.

Lemma HashTimeLockState__eq___refl :
  forall a : HashTimeLockState, (a == a) = true.
Proof. chain_reflexive. Qed.

Lemma HashTimeLockState__eq___sym :
  forall a b : HashTimeLockState, (a == b) = true -> (b == a) = true.
Proof. chain_symmetric. Qed.

Lemma HashTimeLockState__eq___trans :
  forall a b c : HashTimeLockState,
    (a == b) = true -> (b == c) = true -> (a == c) = true.
Proof. chain_transitive. Qed.

#[local] Hint Resolve HashTimeLockState__eq___refl : py_refl.
#[local] Hint Resolve HashTimeLockState__eq___sym : py_sym.
#[local] Hint Resolve HashTimeLockState__eq___trans : py_trans.

Lemma BalanceProofUnsignedState__eq___refl :
  forall a : BalanceProofUnsignedState, (a == a) = true.
Proof. chain_reflexive. Qed.

Lemma BalanceProofUnsignedState__eq___sym :
  forall a b : BalanceProofUnsignedState, (a == b) = true -> (b == a) = true.
Proof. chain_symmetric. Qed.

Lemma BalanceProofUnsignedState__eq___trans :
  forall a b c : BalanceProofUnsignedState,
    (a == b) = true -> (b == c) = true -> (a == c) = true.
Proof. chain_transitive. Qed.

#[local] Hint Resolve BalanceProofUnsignedState__eq___refl : py_refl.
#[local] Hint Resolve BalanceProofUnsignedState__eq___sym : py_sym.
#[local] Hint Resolve BalanceProofUnsignedState__eq___trans : py_trans.

Lemma BalanceProofSignedState__eq___refl :
  forall a : BalanceProofSignedState, (a == a) = true.
Proof. chain_reflexive. Qed.

Lemma BalanceProofSignedState__eq___sym :
  forall a b : BalanceProofSignedState, (a == b) = true -> (b == a) = true.
Proof. chain_symmetric. Qed.

Lemma BalanceProofSignedState__eq___trans :
  forall a b c : BalanceProofSignedState,
    (a == b) = true -> (b == c) = true -> (a == c) = true.
Proof. chain_transitive. Qed.

#[local] Hint Resolve BalanceProofSignedState__eq___refl : py_refl.
#[local] Hint Resolve BalanceProofSignedState__eq___sym : py_sym.
#[local] Hint Resolve BalanceProofSignedState__eq___trans : py_trans.

Lemma LockedTransferUnsignedState__eq___refl :
  forall a : LockedTransferUnsignedState, (a == a) = true.
Proof. chain_reflexive. Qed.

Lemma LockedTransferUnsignedState__eq___sym :
  forall a b : LockedTransferUnsignedState, (a == b) = true -> (b == a) = true.
Proof. chain_symmetric. Qed.

Lemma LockedTransferUnsignedState__eq___trans :
  forall a b c : LockedTransferUnsignedState,
    (a == b) = true -> (b == c) = true -> (a == c) = true.
Proof. chain_transitive. Qed.

#[local] Hint Resolve LockedTransferUnsignedState__eq___refl : py_refl.
#[local] Hint Resolve LockedTransferUnsignedState__eq___sym : py_sym.
#[local] Hint Resolve LockedTransferUnsignedState__eq___trans : py_trans.

Lemma LockedTransferSignedState__eq___refl :
  forall a : LockedTransferSignedState, (a == a) = true.
Proof. chain_reflexive. Qed.

Lemma LockedTransferSignedState__eq___sym :
  forall a b : LockedTransferSignedState, (a == b) = true -> (b == a) = true.
Proof. chain_symmetric. Qed.

Lemma LockedTransferSignedState__eq___trans :
  forall a b c : LockedTransferSignedState,
    (a == b) = true -> (b == c) = true -> (a == c) = true.
Proof. chain_transitive. Qed.

#[local] Hint Resolve LockedTransferSignedState__eq___refl : py_refl.
#[local] Hint Resolve LockedTransferSignedState__eq___sym : py_sym.
#[local] Hint Resolve LockedTransferSignedState__eq___trans : py_trans.

Lemma TransferDescriptionWithSecretState__eq___refl :
  forall a : TransferDescriptionWithSecretState, (a == a) = true.
Proof. chain_reflexive. Qed.

Lemma TransferDescriptionWithSecretState__eq___sym :
  forall a b : TransferDescriptionWithSecretState, (a == b) = true -> (b == a) = true.
Proof. chain_symmetric. Qed.

Lemma TransferDescriptionWithSecretState__eq___trans :
  forall a b c : TransferDescriptionWithSecretState,
    (a == b) = true -> (b == c) = true -> (a == c) = true.
Proof. chain_transitive. Qed.

#[local] Hint Resolve TransferDescriptionWithSecretState__eq___refl : py_refl.
#[local] Hint Resolve TransferDescriptionWithSecretState__eq___sym : py_sym.
#[local] Hint Resolve TransferDescriptionWithSecretState__eq___trans : py_trans.

Lemma MediationPairState__eq___refl :
  forall a : MediationPairState, (a == a) = true.
Proof. chain_reflexive. Qed.

Lemma MediationPairState__eq___sym :
  forall a b : MediationPairState, (a == b) = true -> (b == a) = true.
Proof. chain_symmetric. Qed.

Lemma MediationPairState__eq___trans :
  forall a b c : MediationPairState,
    (a == b) = true -> (b == c) = true -> (a == c) = true.
Proof. chain_transitive. Qed.

#[local] Hint Resolve MediationPairState__eq___refl : py_refl.
#[local] Hint Resolve MediationPairState__eq___sym : py_sym.
#[local] Hint Resolve MediationPairState__eq___trans : py_trans.

#[local] Hint Resolve option__eq___refl list__eq___refl : py_refl.
#[local] Hint Resolve option__eq___sym list__eq___sym : py_sym.
#[local] Hint Resolve option__eq___trans list__eq___trans : py_trans.

Ltac open_role :=
  unfold InitiatorPaymentState__eq__, InitiatorTransferState__eq__,
    MediatorTransferState__eq__, TargetTransferState__eq__;
  rewrite ?andb_true_iff.

Ltac open_role_in Hchain :=
  unfold InitiatorPaymentState__eq__, InitiatorTransferState__eq__,
    MediatorTransferState__eq__, TargetTransferState__eq__ in Hchain;
  rewrite ?andb_true_iff in Hchain.

Lemma value__ne___negb (x y : value) :
  value__ne__ x y = negb (value__eq__ x y).
Proof. destruct x; reflexivity. Qed.

(** An [__eq__] of the module answers [True] only to its own class. *)
Ltac other_class Hxy :=
  unfold HashTimeLockState__eq__, BalanceProofUnsignedState__eq__,
    BalanceProofSignedState__eq__, LockedTransferUnsignedState__eq__,
    LockedTransferSignedState__eq__,
    TransferDescriptionWithSecretState__eq__, MediationPairState__eq__,
    InitiatorPaymentState__eq__, InitiatorTransferState__eq__,
    MediatorTransferState__eq__, TargetTransferState__eq__ in Hxy;
  discriminate Hxy.

Section Reflexive.
Hypothesis Foreign_refl : forall a : Foreign, (a == a) = true.

Lemma InitiatorPaymentState__eq___refl (a : InitiatorPaymentState) :
  InitiatorPaymentState__eq__ a (VInitiatorPaymentState a) = true.
Proof. open_role; repeat split; auto with py_refl. Qed.

Lemma InitiatorTransferState__eq___refl (a : InitiatorTransferState) :
  InitiatorTransferState__eq__ a (VInitiatorTransferState a) = true.
Proof. open_role; repeat split; auto with py_refl. Qed.

Lemma MediatorTransferState__eq___refl (a : MediatorTransferState) :
  MediatorTransferState__eq__ a (VMediatorTransferState a) = true.
Proof. open_role; repeat split; auto with py_refl. Qed.

Lemma TargetTransferState__eq___refl (a : TargetTransferState) :
  TargetTransferState__eq__ a (VTargetTransferState a) = true.
Proof. open_role; repeat split; auto with py_refl. Qed.

(** X1: every value of the module equals itself and is not different
    from itself, provided the objects of foreign classes equal
    themselves. *)
Theorem value__eq___reflexive (x : value) :
  value__eq__ x x = true /\ value__ne__ x x = false.
Proof.
  assert (Heq : value__eq__ x x = true).
  { destruct x as [a|a| | | | | | | | | | | ]; cbn [value__eq__].
    - apply atom__eq___refl.
    - apply Foreign_refl.
    - exact (HashTimeLockState__eq___refl o).
    - exact (BalanceProofUnsignedState__eq___refl o).
    - exact (BalanceProofSignedState__eq___refl o).
    - exact (InitiatorPaymentState__eq___refl o).
    - exact (InitiatorTransferState__eq___refl o).
    - exact (MediatorTransferState__eq___refl o).
    - exact (TargetTransferState__eq___refl o).
    - exact (LockedTransferUnsignedState__eq___refl o).
    - exact (LockedTransferSignedState__eq___refl o).
    - exact (TransferDescriptionWithSecretState__eq___refl o).
    - exact (MediationPairState__eq___refl o).
  }
  split; [exact Heq |]. now rewrite value__ne___negb, Heq.
Qed.

End Reflexive.

Section Symmetric.
Hypothesis Foreign_sym :
  forall a b : Foreign, (a == b) = true -> (b == a) = true.

Lemma InitiatorPaymentState__eq___sym (a b : InitiatorPaymentState) :
  InitiatorPaymentState__eq__ a (VInitiatorPaymentState b) = true ->
  InitiatorPaymentState__eq__ b (VInitiatorPaymentState a) = true.
Proof. intros Hab. open_role_in Hab. open_role. intuition auto with py_sym. Qed.

Lemma InitiatorTransferState__eq___sym (a b : InitiatorTransferState) :
  InitiatorTransferState__eq__ a (VInitiatorTransferState b) = true ->
  InitiatorTransferState__eq__ b (VInitiatorTransferState a) = true.
Proof. intros Hab. open_role_in Hab. open_role. intuition auto with py_sym. Qed.

Lemma MediatorTransferState__eq___sym (a b : MediatorTransferState) :
  MediatorTransferState__eq__ a (VMediatorTransferState b) = true ->
  MediatorTransferState__eq__ b (VMediatorTransferState a) = true.
Proof. intros Hab. open_role_in Hab. open_role. intuition auto with py_sym. Qed.

Lemma TargetTransferState__eq___sym (a b : TargetTransferState) :
  TargetTransferState__eq__ a (VTargetTransferState b) = true ->
  TargetTransferState__eq__ b (VTargetTransferState a) = true.
Proof. intros Hab. open_role_in Hab. open_role. intuition auto with py_sym. Qed.

Lemma value__eq___sym (x y : value) :
  value__eq__ x y = true -> value__eq__ y x = true.
Proof.
  destruct x as [a|a| | | | | | | | | | | ],
           y as [b|b| | | | | | | | | | | ];
    cbn [value__eq__]; intros Hxy; try (other_class Hxy).
  - now apply atom__eq___sym.
  - now apply Foreign_sym.
  - exact (HashTimeLockState__eq___sym _ _ Hxy).
  - exact (BalanceProofUnsignedState__eq___sym _ _ Hxy).
  - exact (BalanceProofSignedState__eq___sym _ _ Hxy).
  - exact (InitiatorPaymentState__eq___sym _ _ Hxy).
  - exact (InitiatorTransferState__eq___sym _ _ Hxy).
  - exact (MediatorTransferState__eq___sym _ _ Hxy).
  - exact (TargetTransferState__eq___sym _ _ Hxy).
  - exact (LockedTransferUnsignedState__eq___sym _ _ Hxy).
  - exact (LockedTransferSignedState__eq___sym _ _ Hxy).
  - exact (TransferDescriptionWithSecretState__eq___sym _ _ Hxy).
  - exact (MediationPairState__eq___sym _ _ Hxy).
Qed.

(** X2: [==] gives the same answer whichever operand stands on the
    left, for any two values, of the same class or not, provided the
    [==] of the foreign classes is symmetric. *)
Theorem value__eq___symmetric (x y : value) :
  value__eq__ x y = value__eq__ y x.
Proof.
  apply Bool.eq_iff_eq_true. split; apply value__eq___sym.
Qed.

End Symmetric.

Section Transitive.
Hypothesis Foreign_trans :
  forall a b c : Foreign,
    (a == b) = true -> (b == c) = true -> (a == c) = true.

Lemma InitiatorPaymentState__eq___trans (a b c : InitiatorPaymentState) :
  InitiatorPaymentState__eq__ a (VInitiatorPaymentState b) = true ->
  InitiatorPaymentState__eq__ b (VInitiatorPaymentState c) = true ->
  InitiatorPaymentState__eq__ a (VInitiatorPaymentState c) = true.
Proof.
  intros Hab Hbc. open_role_in Hab. open_role_in Hbc. open_role.
  intuition eauto with py_trans.
Qed.

Lemma InitiatorTransferState__eq___trans (a b c : InitiatorTransferState) :
  InitiatorTransferState__eq__ a (VInitiatorTransferState b) = true ->
  InitiatorTransferState__eq__ b (VInitiatorTransferState c) = true ->
  InitiatorTransferState__eq__ a (VInitiatorTransferState c) = true.
Proof.
  intros Hab Hbc. open_role_in Hab. open_role_in Hbc. open_role.
  intuition eauto with py_trans.
Qed.

Lemma MediatorTransferState__eq___trans (a b c : MediatorTransferState) :
  MediatorTransferState__eq__ a (VMediatorTransferState b) = true ->
  MediatorTransferState__eq__ b (VMediatorTransferState c) = true ->
  MediatorTransferState__eq__ a (VMediatorTransferState c) = true.
Proof.
  intros Hab Hbc. open_role_in Hab. open_role_in Hbc. open_role.
  intuition eauto with py_trans.
Qed.

Lemma TargetTransferState__eq___trans (a b c : TargetTransferState) :
  TargetTransferState__eq__ a (VTargetTransferState b) = true ->
  TargetTransferState__eq__ b (VTargetTransferState c) = true ->
  TargetTransferState__eq__ a (VTargetTransferState c) = true.
Proof.
  intros Hab Hbc. open_role_in Hab. open_role_in Hbc. open_role.
  intuition eauto with py_trans.
Qed.

(** X3: values equal to a common value are equal, provided the [==]
    of the foreign classes is transitive. *)
Theorem value__eq___transitive (x y z : value) :
  value__eq__ x y = true -> value__eq__ y z = true -> value__eq__ x z = true.
Proof.
  destruct x as [a|a| | | | | | | | | | | ],
           y as [b|b| | | | | | | | | | | ];
    cbn [value__eq__]; intros Hxy; try (other_class Hxy);
    destruct z as [c|c| | | | | | | | | | | ];
    cbn [value__eq__]; intros Hyz; try (other_class Hyz).
  - exact (atom__eq___trans _ _ _ Hxy Hyz).
  - exact (Foreign_trans _ _ _ Hxy Hyz).
  - exact (HashTimeLockState__eq___trans _ _ _ Hxy Hyz).
  - exact (BalanceProofUnsignedState__eq___trans _ _ _ Hxy Hyz).
  - exact (BalanceProofSignedState__eq___trans _ _ _ Hxy Hyz).
  - exact (InitiatorPaymentState__eq___trans _ _ _ Hxy Hyz).
  - exact (InitiatorTransferState__eq___trans _ _ _ Hxy Hyz).
  - exact (MediatorTransferState__eq___trans _ _ _ Hxy Hyz).
  - exact (TargetTransferState__eq___trans _ _ _ Hxy Hyz).
  - exact (LockedTransferUnsignedState__eq___trans _ _ _ Hxy Hyz).
  - exact (LockedTransferSignedState__eq___trans _ _ _ Hxy Hyz).
  - exact (TransferDescriptionWithSecretState__eq___trans _ _ _ Hxy Hyz).
  - exact (MediationPairState__eq___trans _ _ _ Hxy Hyz).
Qed.

End Transitive.

End EqualityLaws.

(** ** Equality and identity of fields *)

Section EqualityDecides.
Context `{Externals}.

Lemma TransferDescriptionWithSecretState__eq___spec
    (x y : TransferDescriptionWithSecretState) :
  TransferDescriptionWithSecretState__eq__ x
    (VTransferDescriptionWithSecretState y) = true <-> x = y.
Proof.
  unfold TransferDescriptionWithSecretState__eq__.
  rewrite !andb_true_iff, !Z__eq___spec, !bytes__eq___spec.
  destruct x, y; simpl. split.
  - intros (((((((-> & ->) & ->) & ->) & ->) & ->) & ->) & ->). reflexivity.
  - intros [= -> -> -> -> -> -> -> ->]. repeat split.
Qed.

Lemma InitiatorPaymentState__eq___spec (x y : InitiatorPaymentState) :
  InitiatorPaymentState__eq__ x (VInitiatorPaymentState y) = true <-> x = y.
Proof.
  unfold InitiatorPaymentState__eq__.
  rewrite andb_true_iff, bytes__eq___spec,
    (list__eq___spec _ _ bytes__eq___spec).
  destruct x, y; simpl. split.
  - intros [-> ->]. reflexivity.
  - intros [= -> ->]. now split.
Qed.

(** X4: on transfer descriptions and on initiator payment states [==]
    holds exactly of values with the same content in every field; for
    the cancelled channels that is the same channels in the same order. *)
Theorem equality_decides_content :
  (forall x y : TransferDescriptionWithSecretState,
      value__eq__ (VTransferDescriptionWithSecretState x)
        (VTransferDescriptionWithSecretState y) = true <-> x = y) /\
  (forall x y : InitiatorPaymentState,
      value__eq__ (VInitiatorPaymentState x) (VInitiatorPaymentState y)
      = true <-> x = y).
Proof.
  split; intros x y; cbn [value__eq__].
  - apply TransferDescriptionWithSecretState__eq___spec.
  - apply InitiatorPaymentState__eq___spec.
Qed.

(** X5: two transfer descriptions made by the constructor are equal
    exactly when the seven arguments were: the secrethash, computed from
    the secret, never decides. *)
Theorem TransferDescriptionWithSecretState_init_equal
    (identifier identifier' amount amount' : Z)
    (registry registry' token token' initiator initiator' : bytes)
    (target target' secret secret' : bytes) :
  TransferDescriptionWithSecretState__eq__
    (TransferDescriptionWithSecretState__init__ identifier amount registry
       token initiator target secret)
    (VTransferDescriptionWithSecretState
       (TransferDescriptionWithSecretState__init__ identifier' amount'
          registry' token' initiator' target' secret')) = true <->
  identifier = identifier' /\ amount = amount' /\ registry = registry' /\
  token = token' /\ initiator = initiator' /\ target = target' /\
  secret = secret'.
Proof.
  rewrite TransferDescriptionWithSecretState__eq___spec.
  unfold TransferDescriptionWithSecretState__init__. split.
  - intros [= -> -> -> -> -> -> -> _]. repeat split.
  - intros (-> & -> & -> & -> & -> & -> & ->). reflexivity.
Qed.

(** X6: two mediator states are equal exactly when they have the same
    secrethash, the same secret or none, and pairs that are equal one by
    one, in the same number and order. *)
Theorem MediatorTransferState__eq___pairs (x y : MediatorTransferState) :
  MediatorTransferState__eq__ x (VMediatorTransferState y) = true <->
  mts_secrethash x = mts_secrethash y /\
  mts_secret x = mts_secret y /\
  Forall2 (fun p q => MediationPairState__eq__ p (VMediationPairState q) = true)
    (mts_transfers_pair x) (mts_transfers_pair y).
Proof.
  unfold MediatorTransferState__eq__.
  rewrite !andb_true_iff, bytes__eq___spec,
    (option__eq___spec _ _ bytes__eq___spec), list__eq___Forall2.
  unfold py_eq at 1, MediationPairState_PyEq. tauto.
Qed.

End EqualityDecides.

(** ** Outcomes of the constructors *)

Section Outcomes.
Context `{Externals}.

(** X7: [LockedTransferUnsignedState.__init__] tests the lock first,
    then the class of the balance proof, then the identity of its
    locksroot; it returns a transfer holding the arguments exactly when
    the three tests pass, and otherwise raises the error of the first
    test that fails. *)
Theorem LockedTransferUnsignedState_init_outcomes
    (identifier : Z) (token : bytes) (balance_proof lock : value)
    (initiator target : bytes) :
  match LockedTransferUnsignedState__init__ identifier token balance_proof
          lock initiator target with
  | Ok transfer =>
      lock = VHashTimeLockState (ltu_lock transfer) /\
      balance_proof = VBalanceProofUnsignedState (ltu_balance_proof transfer) /\
      is_EMPTY_MERKLE_ROOT (bpu_locksroot (ltu_balance_proof transfer)) = false /\
      ltu_identifier transfer = identifier /\
      ltu_token transfer = token /\
      ltu_initiator transfer = initiator /\
      ltu_target transfer = target
  | Raise (ValueError msg) =>
      (msg = "lock must be a HashTimeLockState instance" /\
       forall o, lock <> VHashTimeLockState o) \/
      (msg = "balance_proof must be a BalanceProofUnsignedState instance" /\
       (exists o, lock = VHashTimeLockState o) /\
       forall o, balance_proof <> VBalanceProofUnsignedState o) \/
      (msg = "balance_proof must not be empty" /\
       (exists o, lock = VHashTimeLockState o) /\
       exists o, balance_proof = VBalanceProofUnsignedState o /\
                 bpu_locksroot o = the_EMPTY_MERKLE_ROOT)
  end.
Proof.
  unfold LockedTransferUnsignedState__init__.
  destruct lock; try (left; split; [reflexivity | discriminate]).
  destruct balance_proof as [| | |proof| | | | | | | | |];
    try (right; left; split; [reflexivity | split; [eauto | discriminate]]).
  destruct proof as [nonce amount [|content] channel hash]; cbn.
  - right; right. split; [reflexivity |]. split; eauto.
  - repeat split.
Qed.

(** X8: [LockedTransferSignedState.__init__] tests the lock first, then
    the class of the balance proof, then the identity of its locksroot;
    it returns a transfer holding the arguments exactly when the three
    tests pass, and otherwise raises the error of the first test that
    fails. *)
Theorem LockedTransferSignedState_init_outcomes
    (identifier : Z) (token : bytes) (balance_proof lock : value)
    (initiator target : bytes) :
  match LockedTransferSignedState__init__ identifier token balance_proof
          lock initiator target with
  | Ok transfer =>
      lock = VHashTimeLockState (lts_lock transfer) /\
      balance_proof = VBalanceProofSignedState (lts_balance_proof transfer) /\
      is_EMPTY_MERKLE_ROOT (bps_locksroot (lts_balance_proof transfer)) = false /\
      lts_identifier transfer = identifier /\
      lts_token transfer = token /\
      lts_initiator transfer = initiator /\
      lts_target transfer = target
  | Raise (ValueError msg) =>
      (msg = "lock must be a HashTimeLockState instance" /\
       forall o, lock <> VHashTimeLockState o) \/
      (msg = "balance_proof must be a BalanceProofSignedState instance" /\
       (exists o, lock = VHashTimeLockState o) /\
       forall o, balance_proof <> VBalanceProofSignedState o) \/
      (msg = "balance_proof must not be empty" /\
       (exists o, lock = VHashTimeLockState o) /\
       exists o, balance_proof = VBalanceProofSignedState o /\
                 bps_locksroot o = the_EMPTY_MERKLE_ROOT)
  end.
Proof.
  unfold LockedTransferSignedState__init__.
  destruct lock; try (left; split; [reflexivity | discriminate]).
  destruct balance_proof as [| | | |proof| | | | | | | |];
    try (right; left; split; [reflexivity | split; [eauto | discriminate]]).
  destruct proof as [nonce amount [|content] channel hash signature sender];
    cbn.
  - right; right. split; [reflexivity |]. split; eauto.
  - repeat split.
Qed.

(** X9: [InitiatorTransferState.__init__] raises [ValueError] exactly
    when its first argument is no [TransferDescriptionWithSecretState];
    any channel identifier is taken as it is. *)
Theorem InitiatorTransferState_init_outcomes
    (transfer_description : value) (channel_identifier : bytes) :
  match InitiatorTransferState__init__ transfer_description
          channel_identifier with
  | Ok state =>
      transfer_description
      = VTransferDescriptionWithSecretState (its_transfer_description state) /\
      its_channel_identifier state = channel_identifier
  | Raise e =>
      e = ValueError
            "transfer_description must be an instance of TransferDescriptionWithSecretState" /\
      forall o, transfer_description <> VTransferDescriptionWithSecretState o
  end.
Proof.
  destruct transfer_description; cbn; split;
    solve [reflexivity | discriminate].
Qed.

(** X10: when several arguments of [MediationPairState.__init__] are of
    the wrong kind, the error names the first of them in the order payer
    transfer, payee address, payee transfer. *)
Theorem MediationPairState_init_first_error
    (payer_transfer payee_address payee_transfer : value) (msg : string) :
  MediationPairState__init__ payer_transfer payee_address payee_transfer
  = Raise (ValueError msg) ->
  (msg = "payer_transfer must be a LockedTransferSignedState instance" /\
   class_of payer_transfer <> Some LockedTransferSignedState_cls) \/
  (msg = "payee_address must be an address" /\
   class_of payer_transfer = Some LockedTransferSignedState_cls /\
   isinstance_T_Address payee_address = false) \/
  (msg = "payee_transfer must be a LockedTransferUnsignedState instance" /\
   class_of payer_transfer = Some LockedTransferSignedState_cls /\
   isinstance_T_Address payee_address = true /\
   class_of payee_transfer <> Some LockedTransferUnsignedState_cls).
Proof.
  unfold MediationPairState__init__.
  destruct payer_transfer;
    try (intros [= <-]; left; split; [reflexivity | discriminate]).
  destruct payee_address as [address| | | | | | | | | | | |];
    try (intros [= <-]; right; left; repeat split).
  cbn. destruct (T_Address address) eqn:Haddress;
    [| intros [= <-]; right; left; repeat split].
  destruct payee_transfer;
    intros [= <-]; right; right; repeat split; trivial; discriminate.
Qed.

(** X11: a pair starts, on each side, in a state that the class lists
    as valid for that side. *)
Theorem MediationPairState_init_valid_states
    (payer_transfer payee_address payee_transfer : value) :
  match MediationPairState__init__ payer_transfer payee_address
          payee_transfer with
  | Ok state =>
      In (mp_payer_state state) MediationPairState_valid_payer_states /\
      In (mp_payee_state state) MediationPairState_valid_payee_states /\
      ~ In (mp_payer_state state) MediationPairState_valid_payee_states /\
      ~ In (mp_payee_state state) MediationPairState_valid_payer_states
  | Raise _ => True
  end.
Proof.
  unfold MediationPairState__init__.
  destruct payer_transfer; trivial.
  destruct payee_address as [address| | | | | | | | | | | |]; trivial.
  destruct (T_Address address); trivial.
  destruct payee_transfer; trivial.
  cbn. repeat split; try (now left); intros Hin;
    repeat (destruct Hin as [Hin | Hin]; [discriminate Hin |]);
    exact Hin.
Qed.

(** X12: on a message whose fields are of the types the spec gives
    them, [lockedtransfersigned_from_message] raises none of the
    [isinstance] errors; it raises, saying the balance proof is empty,
    exactly when the message's locksroot is the constant object, and
    otherwise returns the state with the fields of the message. *)
Theorem lockedtransfersigned_from_message_outcomes
    (message : LockedTransferMessage) :
  message_within_types message ->
  match lockedtransfersigned_from_message message with
  | Ok transfer =>
      is_EMPTY_MERKLE_ROOT (msg_locksroot message) = false /\
      lts_identifier transfer = msg_identifier message /\
      lts_token transfer = msg_token message /\
      lts_initiator transfer = msg_initiator message /\
      lts_target transfer = msg_target message /\
      lts_lock transfer
      = mkHashTimeLockState (lock_amount (msg_lock message))
          (lock_expiration (msg_lock message))
          (lock_secrethash (msg_lock message)) /\
      lts_balance_proof transfer
      = mkBalanceProofSignedState (msg_nonce message)
          (msg_transferred_amount message) (msg_locksroot message)
          (msg_channel message) (msg_message_hash message)
          (msg_signature message) (msg_sender message)
  | Raise e =>
      e = ValueError "balance_proof must not be empty" /\
      msg_locksroot message = the_EMPTY_MERKLE_ROOT
  end.
Proof.
  intros _.
  unfold lockedtransfersigned_from_message, LockedTransferSignedState__init__.
  cbn. destruct (msg_locksroot message); cbn; repeat split.
Qed.

End Outcomes.

(** ** The model at concrete values *)

#[local] Existing Instance sample_externals.

(** The guard does stop the constant object itself. *)
Example LockedTransferSignedState__init___stops_constant :
  LockedTransferSignedState__init__ 7 sample_address
    (VBalanceProofSignedState (sample_signed_proof the_EMPTY_MERKLE_ROOT))
    (VHashTimeLockState (sample_lock 100 50))
    sample_address sample_address
  = Raise (ValueError "balance_proof must not be empty").
Proof. reflexivity. Qed.

(** A signed balance proof is no argument for the unsigned transfer. *)
Example LockedTransferUnsignedState__init___wrong_proof :
  LockedTransferUnsignedState__init__ 7 sample_address
    (VBalanceProofSignedState (sample_signed_proof sample_root))
    (VHashTimeLockState (sample_lock 100 50))
    sample_address sample_address
  = Raise (ValueError
      "balance_proof must be a BalanceProofUnsignedState instance").
Proof. reflexivity. Qed.

(** Two transfers with the same fields, one signed, one not, are not
    equal; two pairs built from the same arguments are. *)
Example equality_examples :
  value__eq__
    (VLockedTransferSignedState (sample_payer 100 50))
    (VLockedTransferSignedState (sample_payer 100 50)) = true /\
  value__eq__
    (VLockedTransferSignedState (sample_payer 100 50))
    (VLockedTransferSignedState (sample_payer 100 51)) = false /\
  value__eq__
    (VLockedTransferSignedState (sample_payer 100 50))
    (VLockedTransferUnsignedState (sample_payee 100 50)) = false /\
  value__ne__
    (VLockedTransferUnsignedState (sample_payee 100 50))
    (VAtom PyNone) = true.
Proof. repeat split. Qed.

(** The mapping of a locked transfer at the ends of the ranges. *)
Example sample_LockedTransfer_numbers :
  let m := Messages.to_mapping (Messages.Locked sample_LockedTransfer) in
  m !! "nonce" = Some "1" /\
  m !! "identifier" = Some "18446744073709551615" /\
  m !! "amount" = Some "0" /\
  m !! "token" = Some "0x2a2a2a2a2a2a2a2a2a2a2a2a2a2a2a2a2a2a2a2a" /\
  m !! "cmdid" = None.
Proof. vm_compute. repeat split. Qed.

Example decoders_reject :
  Messages.decode_number "" = None /\
  Messages.decode_number "12a" = None /\
  Messages.data_decoder "2a2a" = None /\
  Messages.data_decoder "0x2a2" = None /\
  Messages.data_decoder "0x2A2b" = Some [x2a; x2b].
Proof. repeat split. Qed.

(** Outside the ranges the law does not hold: a nonce of 0 is rejected
    when read back. *)
Example from_mapping_rejects_nonce_0 :
  let x := Messages.mkDirectTransfer 0 0 [] [] [] [] 0 [] in
  Messages.from_mapping Messages.DirectTransfer_class
    (Messages.to_mapping (Messages.Direct x)) = None.
Proof. vm_compute. reflexivity. Qed.

Lemma from_mapping_to_mapping_witness :
  Messages.valid (Messages.Locked sample_LockedTransfer) /\
  Messages.from_mapping Messages.LockedTransfer_class
    (Messages.to_mapping (Messages.Locked sample_LockedTransfer))
  = Some (Messages.Locked sample_LockedTransfer).
Proof.
  assert (Hvalid : Messages.valid (Messages.Locked sample_LockedTransfer)).
  { repeat split; apply Z.leb_le; reflexivity. }
  split; [exact Hvalid |].
  exact (from_mapping_to_mapping (Messages.Locked sample_LockedTransfer) Hvalid).
Defined.

Lemma value__eq___reflexive_witness :
  (forall a : nat, Nat.eqb a a = true) /\
  value__eq__ (VTargetTransferState (sample_target 3 50))
    (VTargetTransferState (sample_target 3 50)) = true /\
  value__ne__ (VTargetTransferState (sample_target 3 50))
    (VTargetTransferState (sample_target 3 50)) = false.
Proof.
  split; [exact Nat.eqb_refl |].
  exact (@value__eq___reflexive sample_externals Nat.eqb_refl
           (VTargetTransferState (sample_target 3 50))).
Defined.

Lemma value__eq___symmetric_witness :
  (forall a b : nat, Nat.eqb a b = true -> Nat.eqb b a = true) /\
  value__eq__ (VTargetTransferState (sample_target 3 50))
    (VTargetTransferState (sample_target 4 50))
  = value__eq__ (VTargetTransferState (sample_target 4 50))
      (VTargetTransferState (sample_target 3 50)).
Proof.
  assert (Hsym : forall a b : nat, Nat.eqb a b = true -> Nat.eqb b a = true).
  { intros a b Hab. now rewrite Nat.eqb_sym. }
  split; [exact Hsym |].
  exact (@value__eq___symmetric sample_externals Hsym
           (VTargetTransferState (sample_target 3 50))
           (VTargetTransferState (sample_target 4 50))).
Defined.

Lemma value__eq___transitive_witness :
  (forall a b c : nat,
      Nat.eqb a b = true -> Nat.eqb b c = true -> Nat.eqb a c = true) /\
  value__eq__
    (VBalanceProofSignedState (sample_signed_proof the_EMPTY_MERKLE_ROOT))
    (VBalanceProofSignedState
       (sample_signed_proof (other_bytes (repeat x00 32%nat)))) = true /\
  value__eq__
    (VBalanceProofSignedState (sample_signed_proof the_EMPTY_MERKLE_ROOT))
    (VBalanceProofSignedState
       (sample_signed_proof (other_bytes (repeat x00 16%nat ++ repeat x00 16%nat)%list)))
  = true.
Proof.
  assert (Htrans : forall a b c : nat,
             Nat.eqb a b = true -> Nat.eqb b c = true -> Nat.eqb a c = true).
  { intros a b c Hab Hbc. apply Nat.eqb_eq in Hab, Hbc. apply Nat.eqb_eq.
    congruence. }
  split; [exact Htrans |]. split; [reflexivity |].
  apply (@value__eq___transitive sample_externals Htrans
           (VBalanceProofSignedState
              (sample_signed_proof the_EMPTY_MERKLE_ROOT))
           (VBalanceProofSignedState
              (sample_signed_proof (other_bytes (repeat x00 32%nat))))
           (VBalanceProofSignedState
              (sample_signed_proof
                 (other_bytes (repeat x00 16%nat ++ repeat x00 16%nat)%list))));
    reflexivity.
Defined.

Lemma MediationPairState_init_first_error_witness :
  MediationPairState__init__ (VAtom PyNone) (VAtom (PyInt 3)) (VAtom PyNone)
  = Raise (ValueError
      "payer_transfer must be a LockedTransferSignedState instance") /\
  class_of (VAtom PyNone) <> Some LockedTransferSignedState_cls.
Proof.
  split; [reflexivity |].
  destruct (MediationPairState_init_first_error
              (VAtom PyNone) (VAtom (PyInt 3)) (VAtom PyNone)
              "payer_transfer must be a LockedTransferSignedState instance"
              eq_refl)
    as [[_ Hclass] | [[Hmsg _] | [Hmsg _]]];
    [exact Hclass | discriminate Hmsg | discriminate Hmsg].
Defined.

(** A run of the target machine with a reveal timeout of 5 on a lock
    that expires at block 50: the transfer arrives, the secret is
    revealed, and no balance proof follows. *)
Example target_run_to_expiry :
  let arrive := ReceiveLockedTransfer 3%nat (sample_payer 100 50) in
  let reveal := ReceiveSecretReveal (repeat x11 32%nat) in
  let state_after events :=
    option_map tts_state
      (fst (target_run sample_address 5 events None)) in
  state_after [] = None /\
  state_after [arrive] = Some "secret_request" /\
  state_after [arrive; ReceiveSecretReveal [x00]] = Some "secret_request" /\
  state_after [arrive; reveal] = Some "reveal_secret" /\
  state_after [arrive; reveal; Block 44] = Some "reveal_secret" /\
  state_after [arrive; reveal; Block 45] = Some "waiting_close" /\
  state_after [arrive; reveal; Block 45; Block 50] = Some "expired" /\
  state_after [arrive; reveal; ReceiveBalanceProof; Block 50] = None /\
  snd (target_run sample_address 5 [arrive; reveal; Block 45] None)
  = [ SendSecretRequest 7 100 (repeat x11 32%nat);
      SendRevealSecret (repeat x11 32%nat);
      RequestOnChainSettlement ].
Proof. repeat split. Qed.

Lemma lockedtransfersigned_from_message_outcomes_witness :
  message_within_types (sample_message sample_root) /\
  is_EMPTY_MERKLE_ROOT (msg_locksroot (sample_message sample_root)) = false.
Proof.
  assert (Htypes : message_within_types (sample_message sample_root)).
  { repeat split; try reflexivity; apply Z.leb_le; reflexivity. }
  split; [exact Htypes |].
  pose proof (@lockedtransfersigned_from_message_outcomes sample_externals
                (sample_message sample_root) Htypes) as Houtcome.
  cbn in Houtcome. exact (proj1 Houtcome).
Defined.
